(** * Admission and lifecycle engine of the catalog page

    A shallow embedding of the register / join / lifecycle logic of
    [CatalogPage] (firebase realtime database client), and the properties
    the specification states about it.

    Modelling conventions.
    - JavaScript numbers are integers ([Z]): millisecond timestamps and
      counters, inside the range a double represents exactly.
    - Values stored in the realtime database are JSON scalars ([jsval]); a
      stored object is a finite map from field names to scalars ([obj]);
      a missing field reads as [None] (JavaScript [undefined]).
    - Builtins whose result the code only consumes ([Date.parse], the
      string-to-number conversion, [localeCompare]) are an interface
      ([JsBuiltins]); every result holds for all implementations of it.
    - A handler is a function of the world it runs in: the store, the
      component state, and the answers of the environment (clock
      readings, store failures, generated keys).  Other clients show up
      where the code relies on the store to handle them: a transaction
      first runs on stale snapshots, and committed transactions apply
      one after the other. *)

From Stdlib Require Import ZArith Lia Ascii String.
From Stdlib Require OrderedTypeEx.
From stdpp Require Import base option list gmap strings pretty sorting.

Local Open Scope string_scope.
Local Open Scope Z_scope.

(** ** JavaScript values *)

Inductive jsval :=
  | JNum (z : Z)
  | JStr (s : string)
  | JBool (b : bool).

#[global] Instance jsval_eq_dec : EqDecision jsval.
Proof. solve_decision. Defined.

Abbreviation obj := (gmap string jsval).

Class JsBuiltins := {
  (** [Date.parse(s)]: [None] stands for [NaN]. *)
  Date_parse : string -> option Z;
  (** [Number(s)] on a string: [None] stands for [NaN]. *)
  Number_of_string : string -> option Z;
  (** [a.localeCompare(b)]. *)
  localeCompare : string -> string -> Z
}.

(** Truthiness of a number ([0] is falsy; [NaN] is never stored). *)
Definition truthyZ (z : Z) : bool := negb (z =? 0).

(** Truthiness of a possibly missing value. *)
Definition truthy (v : option jsval) : bool :=
  match v with
  | None => false
  | Some (JNum z) => truthyZ z
  | Some (JStr s) => negb (String.eqb s "")
  | Some (JBool b) => b
  end.

(** [a ?? b]: stored values are never [null], so only a missing field
    falls through. *)
Definition nullish (a b : option jsval) : option jsval :=
  match a with
  | Some v => Some v
  | None => b
  end.

(** The white space [String.prototype.trim] strips, on ASCII strings. *)
Definition is_js_space (a : ascii) : bool :=
  let n := Ascii.N_of_ascii a in
  ((9 <=? n) && (n <=? 13))%N || (n =? 32)%N.

Fixpoint is_blank (s : string) : bool :=
  match s with
  | EmptyString => true
  | String a s' => is_js_space a && is_blank s'
  end.

Definition lower_ascii (a : ascii) : ascii :=
  let n := Ascii.N_of_ascii a in
  if ((65 <=? n) && (n <=? 90))%N then Ascii.ascii_of_N (n + 32) else a.

(** [s.toLowerCase()], on ASCII strings. *)
Fixpoint toLowerCase (s : string) : string :=
  match s with
  | EmptyString => EmptyString
  | String a s' => String (lower_ascii a) (toLowerCase s')
  end.

(** [String(v)] for a stored scalar. *)
Definition js_String (v : jsval) : string :=
  match v with
  | JNum z => pretty z
  | JStr s => s
  | JBool true => "true"
  | JBool false => "false"
  end.

Definition is_digit (a : ascii) : bool :=
  let n := Ascii.N_of_ascii a in ((48 <=? n) && (n <=? 57))%N.

Fixpoint digits_only (s : string) : string :=
  match s with
  | EmptyString => EmptyString
  | String a s' => if is_digit a then String a (digits_only s') else digits_only s'
  end.

(** [String(value).replace(/\D/g, '').slice(-10)] *)
Definition sanitizePhone (value : string) : string :=
  let digits := digits_only value in
  String.substring (String.length digits - 10) 10 digits.

Definition toE164India (value : string) : string :=
  let digits := sanitizePhone value in
  if negb (String.eqb digits "") then "+91" +:+ digits else "".

(** ** Rooms and their lifecycle *)

Inductive RoomState := upcoming | current | ended.

#[global] Instance RoomState_eq_dec : EqDecision RoomState.
Proof. solve_decision. Defined.

(** A catalog entry, as built by the rooms listener. *)
Record Room := {
  room_id : string;
  room_isLive : bool;
  room_audienceIndex : gmap string obj;
  room_eventConfig : obj;
  room_rsvpConfig : obj
}.

(** The session profile, as [normalizeProfile] builds it. *)
Record Profile := {
  role : string;
  userId : string;
  phone : string;
  phoneE164 : string;
  email : string;
  unregistered : bool;
  displayName : string;
  lastRoomId : string;
  firebaseUid : string
}.

(** [{ ...profile, lastRoomId: roomId }] *)
Definition with_lastRoomId (p : Profile) (roomId : string) : Profile :=
  {| role := role p; userId := userId p; phone := phone p;
     phoneE164 := phoneE164 p; email := email p;
     unregistered := unregistered p; displayName := displayName p;
     lastRoomId := roomId; firebaseUid := firebaseUid p |}.

Definition RSVP_REGISTERED : string := "registered".
Definition RSVP_WAITLISTED : string := "waitlisted".
Definition RSVP_CANCELLED : string := "cancelled".

Definition DEFAULT_RSVP_CONFIG : obj :=
  {[ "rsvpOpen" := JBool true;
     "capacity" := JNum 100;
     "bookedCount" := JNum 0;
     "waitlistCount" := JNum 0 ]}.

Record Buckets := {
  bucket_yours : list Room;
  bucket_upcoming : list Room;
  bucket_current : list Room
}.

(** ** The backing store

    A location of the realtime database is a path template with its
    arguments; the object stored there holds the scalar children. *)

Definition path : Type := string * list string.
Abbreviation Db := (gmap path obj).

Definition p_audience_data (roomId key : string) : path :=
  ("audience_data/$/$", [roomId; key]).
Definition p_room (roomId : string) : path :=
  ("rooms/$", [roomId]).
Definition p_event_config (roomId : string) : path :=
  ("rooms/$/event_config", [roomId]).
Definition p_audience_index (roomId userId : string) : path :=
  ("rooms/$/audience_index/$", [roomId; userId]).
Definition p_unregistered (roomId phone : string) : path :=
  ("rooms/$/unregistered/$", [roomId; phone]).
Definition p_rsvp_config (roomId : string) : path :=
  ("rooms/$/rsvp_config", [roomId]).
Definition p_room_rsvp (roomId ownerId : string) : path :=
  ("rooms/$/rsvps/$", [roomId; ownerId]).
Definition p_user (uid : string) : path :=
  ("users/$", [uid]).
Definition p_user_rsvp (ownerId roomId : string) : path :=
  ("users/$/rsvps/$", [ownerId; roomId]).

(** ** Component state and environment *)

Record Ui := {
  profile : option Profile;
  userRsvps : gmap string obj;
  joiningRoom : string;
  registeringRoom : string;
  selectedRoomForRsvp : option Room;
  selectedLockedRoom : option Room;
  error : string;
  notice : string;
  (** the last [navigate] target *)
  location : option string;
  (** [localStorage[SESSION_KEY]] *)
  session : option Profile
}.

(** The world a handler runs in: the store, the component state, and what
    the environment will answer: the coming readings of [Date.now()],
    whether each coming store round trip fails, the keys [push] will
    generate, and for each coming transaction the stale snapshots its
    update function is first run on. *)
Record World := {
  db : Db;
  ui : Ui;
  clock : nat -> Z;
  faults : nat -> bool;
  push_keys : nat -> string;
  tx_cache : nat -> list (option obj)
}.

Definition next {A} (s : nat -> A) : nat -> A := λ n, s (S n).

Inductive result (A : Type) :=
  | Ok (a : A)
  | Thrown.
Arguments Ok {A} a.
Arguments Thrown {A}.

(** Handlers: state passing over the world, with exceptions. *)
Definition M (A : Type) : Type := World -> result A * World.

#[global] Instance M_ret : MRet M := λ A a w, (Ok a, w).
#[global] Instance M_bind : MBind M := λ A B f m w,
  match m w with
  | (Ok a, w') => f a w'
  | (Thrown, w') => (Thrown, w')
  end.

Definition try_catch {A} (body handler : M A) : M A := λ w,
  match body w with
  | (Ok a, w') => (Ok a, w')
  | (Thrown, w') => handler w'
  end.

Definition try_finally {A} (body : M A) (finalizer : M unit) : M A := λ w,
  match body w with
  | (r, w') =>
      match finalizer w' with
      | (Ok _, w'') => (r, w'')
      | (Thrown, w'') => (Thrown, w'')
      end
  end.

Definition get_ui : M Ui := λ w, (Ok (ui w), w).

Definition modify_ui (f : Ui -> Ui) : M unit := λ w,
  (Ok tt, {| db := db w; ui := f (ui w); clock := clock w; faults := faults w;
             push_keys := push_keys w; tx_cache := tx_cache w |}).

Definition Date_now : M Z := λ w,
  (Ok (clock w 0%nat),
   {| db := db w; ui := ui w; clock := next (clock w); faults := faults w;
      push_keys := push_keys w; tx_cache := tx_cache w |}).

(** [push(ref)] without a value: a fresh key, generated by the client. *)
Definition push_key : M string := λ w,
  (Ok (push_keys w 0%nat),
   {| db := db w; ui := ui w; clock := clock w; faults := faults w;
      push_keys := next (push_keys w); tx_cache := tx_cache w |}).

(** One round trip to the store: it fails as a whole (the promise
    rejects, nothing is written) or it applies [op] in one step. *)
Definition store_op {A} (op : Db -> A * Db) : M A := λ w,
  if faults w 0%nat
  then (Thrown, {| db := db w; ui := ui w; clock := clock w;
                   faults := next (faults w); push_keys := push_keys w;
                   tx_cache := tx_cache w |})
  else
    let '(a, db') := op (db w) in
    (Ok a, {| db := db'; ui := ui w; clock := clock w;
              faults := next (faults w); push_keys := push_keys w;
              tx_cache := tx_cache w |}).

Definition db_get (p : path) : M (option obj) :=
  store_op (λ d, (d !! p, d)).

Definition db_set (p : path) (value : obj) : M unit :=
  store_op (λ d, (tt, <[p := value]> d)).

(** [update(ref, values)]: the named children are replaced, the others
    stay. *)
Definition db_update (p : path) (values : obj) : M unit :=
  store_op (λ d, (tt, <[p := values ∪ default ∅ (d !! p)]> d)).

(** [update(ref(db), updates)] with several paths: one atomic write. *)
Definition db_multi_update (updates : list (path * obj)) : M unit :=
  store_op (λ d, (tt, foldr (λ u acc, <[u.1 := u.2]> acc) d updates)).

(** [update] and [set] reject (throw on) an object with an [undefined]
    property before anything is sent. *)
Definition defined (v : option jsval) : M jsval := λ w,
  match v with
  | Some x => (Ok x, w)
  | None => (Thrown, w)
  end.

(** The runs of a transaction's update function on stale snapshots,
    threading the state [S] of the variables the function assigns: a run
    that returns [undefined] aborts the transaction, a run that returns a
    value is rejected by the store (the snapshot was stale) and retried. *)
Fixpoint tx_attempts {S} (f : option obj -> S -> option obj * S)
    (snapshots : list (option obj)) (s : S) : bool * S :=
  match snapshots with
  | [] => (false, s)
  | v :: rest =>
      match f v s with
      | (None, s') => (true, s')
      | (Some _, s') => tx_attempts f rest s'
      end
  end.

(** [runTransaction(ref, f)]: the result is [(committed, s)]. *)
Definition runTransaction {S} (p : path)
    (f : option obj -> S -> option obj * S) (s : S) : M (bool * S) := λ w,
  let w' d := {| db := d; ui := ui w; clock := clock w; faults := next (faults w);
                 push_keys := push_keys w; tx_cache := next (tx_cache w) |} in
  if faults w 0%nat then (Thrown, w' (db w))
  else
    match tx_attempts f (tx_cache w 0%nat) s with
    | (true, s') => (Ok (false, s'), w' (db w))
    | (false, s') =>
        match f (db w !! p) s' with
        | (None, s'') => (Ok (false, s''), w' (db w))
        | (Some v, s'') => (Ok (true, s''), w' (<[p := v]> (db w)))
        end
    end.

(** State setters of the component. *)
Definition setUi_profile (v : option Profile) (u : Ui) : Ui :=
  {| profile := v; userRsvps := userRsvps u; joiningRoom := joiningRoom u;
     registeringRoom := registeringRoom u;
     selectedRoomForRsvp := selectedRoomForRsvp u;
     selectedLockedRoom := selectedLockedRoom u; error := error u;
     notice := notice u; location := location u; session := session u |}.
Definition setUi_userRsvps (f : gmap string obj -> gmap string obj) (u : Ui) : Ui :=
  {| profile := profile u; userRsvps := f (userRsvps u);
     joiningRoom := joiningRoom u; registeringRoom := registeringRoom u;
     selectedRoomForRsvp := selectedRoomForRsvp u;
     selectedLockedRoom := selectedLockedRoom u; error := error u;
     notice := notice u; location := location u; session := session u |}.
Definition setUi_joiningRoom (v : string) (u : Ui) : Ui :=
  {| profile := profile u; userRsvps := userRsvps u; joiningRoom := v;
     registeringRoom := registeringRoom u;
     selectedRoomForRsvp := selectedRoomForRsvp u;
     selectedLockedRoom := selectedLockedRoom u; error := error u;
     notice := notice u; location := location u; session := session u |}.
Definition setUi_registeringRoom (v : string) (u : Ui) : Ui :=
  {| profile := profile u; userRsvps := userRsvps u;
     joiningRoom := joiningRoom u; registeringRoom := v;
     selectedRoomForRsvp := selectedRoomForRsvp u;
     selectedLockedRoom := selectedLockedRoom u; error := error u;
     notice := notice u; location := location u; session := session u |}.
Definition setUi_selectedRoomForRsvp (v : option Room) (u : Ui) : Ui :=
  {| profile := profile u; userRsvps := userRsvps u;
     joiningRoom := joiningRoom u; registeringRoom := registeringRoom u;
     selectedRoomForRsvp := v;
     selectedLockedRoom := selectedLockedRoom u; error := error u;
     notice := notice u; location := location u; session := session u |}.
Definition setUi_selectedLockedRoom (v : option Room) (u : Ui) : Ui :=
  {| profile := profile u; userRsvps := userRsvps u;
     joiningRoom := joiningRoom u; registeringRoom := registeringRoom u;
     selectedRoomForRsvp := selectedRoomForRsvp u;
     selectedLockedRoom := v; error := error u;
     notice := notice u; location := location u; session := session u |}.
Definition setUi_error (v : string) (u : Ui) : Ui :=
  {| profile := profile u; userRsvps := userRsvps u;
     joiningRoom := joiningRoom u; registeringRoom := registeringRoom u;
     selectedRoomForRsvp := selectedRoomForRsvp u;
     selectedLockedRoom := selectedLockedRoom u; error := v;
     notice := notice u; location := location u; session := session u |}.
Definition setUi_notice (v : string) (u : Ui) : Ui :=
  {| profile := profile u; userRsvps := userRsvps u;
     joiningRoom := joiningRoom u; registeringRoom := registeringRoom u;
     selectedRoomForRsvp := selectedRoomForRsvp u;
     selectedLockedRoom := selectedLockedRoom u; error := error u;
     notice := v; location := location u; session := session u |}.
Definition setUi_location (v : option string) (u : Ui) : Ui :=
  {| profile := profile u; userRsvps := userRsvps u;
     joiningRoom := joiningRoom u; registeringRoom := registeringRoom u;
     selectedRoomForRsvp := selectedRoomForRsvp u;
     selectedLockedRoom := selectedLockedRoom u; error := error u;
     notice := notice u; location := v; session := session u |}.
Definition setUi_session (v : option Profile) (u : Ui) : Ui :=
  {| profile := profile u; userRsvps := userRsvps u;
     joiningRoom := joiningRoom u; registeringRoom := registeringRoom u;
     selectedRoomForRsvp := selectedRoomForRsvp u;
     selectedLockedRoom := selectedLockedRoom u; error := error u;
     notice := notice u; location := location u; session := v |}.

Definition setProfile v : M unit := modify_ui (setUi_profile v).
Definition setUserRsvps f : M unit := modify_ui (setUi_userRsvps f).
Definition setJoiningRoom v : M unit := modify_ui (setUi_joiningRoom v).
Definition setRegisteringRoom v : M unit := modify_ui (setUi_registeringRoom v).
Definition setSelectedRoomForRsvp v : M unit := modify_ui (setUi_selectedRoomForRsvp v).
Definition setSelectedLockedRoom v : M unit := modify_ui (setUi_selectedLockedRoom v).
Definition setError v : M unit := modify_ui (setUi_error v).
Definition setNotice v : M unit := modify_ui (setUi_notice v).
Definition navigate (target : string) : M unit := modify_ui (setUi_location (Some target)).
Definition localStorage_setSession v : M unit := modify_ui (setUi_session (Some v)).

Section Engine.
Context `{JsBuiltins}.

Definition parseTimeToMs (value : option jsval) : Z :=
  match value with
  | Some (JNum z) => z
  | Some (JStr s) =>
      if negb (is_blank s)
      then match Date_parse s with Some parsed => parsed | None => 0 end
      else 0
  | _ => 0
  end.

Definition getRoomWindow (room : Room) : Z * Z :=
  let cfg := room_eventConfig room in
  let startTimeMs := parseTimeToMs (nullish (cfg !! "startTimeMs") (cfg !! "startTime")) in
  let endTimeMs := parseTimeToMs (nullish (cfg !! "endTimeMs") (cfg !! "endTime")) in
  (startTimeMs, endTimeMs).

Definition getRoomState (room : Room) (nowMs : Z) : RoomState :=
  let '(startTimeMs, endTimeMs) := getRoomWindow room in
  if truthyZ startTimeMs && (nowMs <? startTimeMs) then upcoming
  else if truthyZ endTimeMs && (nowMs >=? endTimeMs) then ended
  else if room_isLive room then current
  else if truthyZ startTimeMs && (nowMs >=? startTimeMs)
          && (negb (truthyZ endTimeMs) || (nowMs <? endTimeMs)) then current
  else upcoming.

Definition roomStateRank (state : RoomState) : Z :=
  match state with
  | current => 0
  | upcoming => 1
  | ended => 2
  end.

Definition isActiveRsvpStatus (status : option jsval) : bool :=
  let normalized :=
    toLowerCase (if truthy status then from_option js_String "" status else "") in
  String.eqb normalized RSVP_REGISTERED || String.eqb normalized RSVP_WAITLISTED.

(** ** Catalog aggregator *)

(** [a || b] on strings: the first non-empty one. *)
Definition str_or (a b : string) : string :=
  if String.eqb a "" then b else a.

Definition profileUserId (profile : option Profile) : string :=
  match profile with
  | Some p => str_or (userId p) (str_or (firebaseUid p) "")
  | None => ""
  end.

Definition rsvpOwnerId (profile : option Profile) : string :=
  match profile with
  | Some p =>
      str_or (firebaseUid p)
        (str_or (userId p)
           (if negb (String.eqb (phone p) "") then "USER-" +:+ phone p else ""))
  | None => ""
  end.

Definition MAX_SAFE_INTEGER : Z := 9007199254740991.

(** [x || Number.MAX_SAFE_INTEGER] on a number. *)
Definition start_or_max (startTimeMs : Z) : Z :=
  if truthyZ startTimeMs then startTimeMs else MAX_SAFE_INTEGER.

(** The comparator of the [userRooms.sort] call. *)
Definition yourShows_compare (lastRoomId : string) (nowMs : Z) (a b : Room) : Z :=
  if negb (String.eqb lastRoomId "") && String.eqb (room_id a) lastRoomId then -1
  else if negb (String.eqb lastRoomId "") && String.eqb (room_id b) lastRoomId then 1
  else
    let stateDiff :=
      roomStateRank (getRoomState a nowMs) - roomStateRank (getRoomState b nowMs) in
    if negb (stateDiff =? 0) then stateDiff
    else
      let aStart := start_or_max (getRoomWindow a).1 in
      let bStart := start_or_max (getRoomWindow b).1 in
      if negb (aStart =? bStart) then aStart - bStart
      else localeCompare (room_id a) (room_id b).

(** [Array.prototype.sort] with a comparator: [a] may stay before [b]
    when the comparator does not return a positive number.  The sort is
    modelled by a merge sort; what is used of it is that it permutes. *)
Definition not_after (cmp : Room -> Room -> Z) : relation Room :=
  λ a b, cmp a b <= 0.

#[global] Instance not_after_dec cmp : RelDecision (not_after cmp).
Proof. intros a b. unfold not_after. apply _. Defined.

Definition js_sort (cmp : Room -> Room -> Z) (l : list Room) : list Room :=
  merge_sort (not_after cmp) l.

Definition joinedRoom (profile : option Profile) (userRsvps : gmap string obj)
    (room : Room) : bool :=
  let joinedViaAudience :=
    bool_decide (is_Some (room_audienceIndex room !! profileUserId profile)) in
  let joinedViaRsvp :=
    isActiveRsvpStatus (userRsvps !! room_id room ≫= (.!! "status")) in
  joinedViaAudience || joinedViaRsvp.

Definition yourShows (profile : option Profile) (rooms : list Room)
    (userRsvps : gmap string obj) (nowMs : Z) : list Room :=
  if String.eqb (profileUserId profile) "" && String.eqb (rsvpOwnerId profile) ""
  then []
  else
    let userRooms := filter (λ room, joinedRoom profile userRsvps room = true) rooms in
    js_sort (yourShows_compare (from_option lastRoomId "" profile) nowMs) userRooms.

Definition yourSet (yourShows : list Room) : gset string :=
  list_to_set (room_id <$> yourShows).

Definition upcomingShows (rooms : list Room) (yourSet : gset string) (nowMs : Z)
    : list Room :=
  filter (λ r, getRoomState r nowMs = upcoming ∧ room_id r ∉ yourSet) rooms.

Definition currentShows (rooms : list Room) (yourSet : gset string) (nowMs : Z)
    : list Room :=
  filter (λ r, getRoomState r nowMs = current ∧ room_id r ∉ yourSet) rooms.

(** The three rails of the page: [yourShows], then [yourSet] from it,
    then [upcomingShows] and [currentShows] from both. *)
Definition getBuckets (profile : option Profile) (rooms : list Room)
    (userRsvps : gmap string obj) (nowMs : Z) : Buckets :=
  let yours := yourShows profile rooms userRsvps nowMs in
  {| bucket_yours := yours;
     bucket_upcoming := upcomingShows rooms (yourSet yours) nowMs;
     bucket_current := currentShows rooms (yourSet yours) nowMs |}.

(** ** Audience join writer *)

(** The object the index entry is updated with. *)
Definition audienceIndexValues (userId finalName : string) (profile : Profile)
    (role : string) (firstSeen : jsval) (lastSeen : Z) (lastSessionKey : string)
    : obj :=
  {[ "userId" := JStr userId;
     "username" := JStr finalName;
     "email" := JStr (email profile);
     "phone" := JStr (phone profile);
     "role" := JStr role;
     "firstSeen" := firstSeen;
     "lastSeen" := JNum lastSeen;
     "lastSessionKey" := JStr lastSessionKey ]}.

(** [profile.userId || profile.firebaseUid || `USER-${profile.phone}`] *)
Definition joinUserId (profile : Profile) : string :=
  str_or (userId profile)
    (str_or (firebaseUid profile) ("USER-" +:+ phone profile)).

Definition handleJoinRoom (roomId : string) : M unit :=
  u ← get_ui;
  match profile u with
  | None => mret tt
  | Some profile =>
      if String.eqb (displayName profile) "" then
        setError "Display name missing. Please login again.";;
        setNotice "";;
        navigate "/login"
      else
        setError "";;
        setNotice "";;
        setJoiningRoom roomId;;
        try_catch
          (let finalName := displayName profile in
           let role := str_or (role profile) "audience" in
           let userId := joinUserId profile in
           userRef_key ← push_key;
           joinedAt ← Date_now;
           db_set (p_audience_data roomId userRef_key)
             {[ "email" := JStr (email profile);
                "phone" := JStr (phone profile);
                "role" := JStr role;
                "userId" := JStr userId;
                "username" := JStr finalName;
                "joinedAt" := JNum joinedAt;
                "restrictions/isMuted" := JBool false;
                "restrictions/isBidBanned" := JBool false;
                "restrictions/isKicked" := JBool false ]};;
           indexSnap ← db_get (p_audience_index roomId userId);
           firstSeen ← match indexSnap with
                       | Some val => mret (val !! "firstSeen")
                       | None => t ← Date_now; mret (Some (JNum t))
                       end;
           lastSeen ← Date_now;
           firstSeen ← defined firstSeen;
           db_update (p_audience_index roomId userId)
             (audienceIndexValues userId finalName profile role firstSeen
                lastSeen userRef_key);;
           (if unregistered profile then
              timestamp ← Date_now;
              db_set (p_unregistered roomId (phone profile))
                {[ "phone" := JStr (phone profile);
                   "email" := JStr (email profile);
                   "timestamp" := JNum timestamp;
                   "source" := JStr "otp" ]}
            else mret tt);;
           (if negb (String.eqb (firebaseUid profile) "") then
              lastLoginAt ← Date_now;
              db_update (p_user (firebaseUid profile))
                {[ "displayName" := JStr finalName;
                   "username" := JStr finalName;
                   "role" := JStr role;
                   "phone" := JStr (phone profile);
                   "phoneE164" :=
                     JStr (str_or (phoneE164 profile) (toE164India (phone profile)));
                   "email" := JStr (email profile);
                   "lastLoginAt" := JNum lastLoginAt;
                   "lastRoomId" := JStr roomId ]};;
              let nextProfile := with_lastRoomId profile roomId in
              setProfile (Some nextProfile);;
              localStorage_setSession nextProfile
            else mret tt);;
           navigate ("/room/" +:+ roomId +:+ "?dbKey=" +:+ userRef_key
                     +:+ "&uid=" +:+ userId +:+ "&role=" +:+ role))
          (setError "Failed to enter room. Please retry.";;
           setNotice "";;
           setJoiningRoom "")
  end.

(** ** Capacity ledger and dual-view writer *)

(** [Number(v)]: [None] stands for [NaN]. *)
Definition js_Number (v : option jsval) : option Z :=
  match v with
  | None => None
  | Some (JNum z) => Some z
  | Some (JStr s) => Number_of_string s
  | Some (JBool b) => Some (if b then 1 else 0)
  end.

(** [Number(v) || 0] *)
Definition number_or_0 (v : option jsval) : Z :=
  match js_Number v with
  | Some z => if truthyZ z then z else 0
  | None => 0
  end.

(** The update function of the register transaction; [assignedStatus]
    is the variable of the enclosing handler it assigns. *)
Definition registerTx (current : option obj) (assignedStatus : string)
    : option obj * string :=
  let cfg : obj := default ∅ current ∪ DEFAULT_RSVP_CONFIG in
  if decide (cfg !! "rsvpOpen" = Some (JBool false)) then (None, assignedStatus)
  else
    let capacity := number_or_0 (cfg !! "capacity") in
    let bookedCount := number_or_0 (cfg !! "bookedCount") in
    let waitlistCount := number_or_0 (cfg !! "waitlistCount") in
    if (capacity >? 0) && (bookedCount >=? capacity)
    then (Some (<["waitlistCount" := JNum (waitlistCount + 1)]> cfg), RSVP_WAITLISTED)
    else (Some (<["bookedCount" := JNum (bookedCount + 1)]> cfg), RSVP_REGISTERED).

Definition roomRsvpPayload (assignedStatus : string) (now : Z) (profile : Profile)
    (rsvpOwnerId : string) : obj :=
  {[ "status" := JStr assignedStatus;
     "createdAt" := JNum now;
     "phone" := JStr (phone profile);
     "displayName" := JStr (displayName profile);
     "userId" := JStr rsvpOwnerId ]}.

Definition userRsvpPayload (assignedStatus roomId : string)
    (startTimeMs endTimeMs now : Z) : obj :=
  {[ "status" := JStr assignedStatus;
     "roomId" := JStr roomId;
     "startTimeMs" := JNum (if truthyZ startTimeMs then startTimeMs else 0);
     "endTimeMs" := JNum (if truthyZ endTimeMs then endTimeMs else 0);
     "updatedAt" := JNum now ]}.

Definition handleRegisterForSelectedRoom : M unit :=
  u ← get_ui;
  match profile u, selectedRoomForRsvp u with
  | Some profile, Some room =>
      let rsvpOwnerId := rsvpOwnerId (Some profile) in
      if String.eqb rsvpOwnerId "" then
        setError "Unable to resolve user session. Please login again.";;
        setNotice ""
      else
        t ← Date_now;
        let stateNow := getRoomState room t in
        if negb (bool_decide (stateNow = upcoming)) then
          setSelectedRoomForRsvp None;;
          setError "Registration closed for this room.";;
          setNotice ""
        else
          setError "";;
          setNotice "";;
          setRegisteringRoom (room_id room);;
          try_finally
            (try_catch
               (let roomId := room_id room in
                existingSnap ← db_get (p_room_rsvp roomId rsvpOwnerId);
                let existing_status := existingSnap ≫= (.!! "status") in
                if isActiveRsvpStatus existing_status then
                  setSelectedRoomForRsvp None;;
                  setNotice ("Already " +:+ from_option js_String "undefined" existing_status
                             +:+ " for " +:+ roomId +:+ ".")
                else
                  txResult ← runTransaction (p_rsvp_config roomId) registerTx "";
                  let '(committed, assignedStatus) := txResult in
                  if negb committed || String.eqb assignedStatus "" then
                    setError "RSVP is currently closed for this room.";;
                    setNotice ""
                  else
                    now ← Date_now;
                    let '(startTimeMs, endTimeMs) := getRoomWindow room in
                    let roomPayload :=
                      roomRsvpPayload assignedStatus now profile rsvpOwnerId in
                    let userPayload :=
                      userRsvpPayload assignedStatus roomId startTimeMs endTimeMs now in
                    db_multi_update
                      [ (p_room_rsvp roomId rsvpOwnerId, roomPayload);
                        (p_user_rsvp rsvpOwnerId roomId, userPayload) ];;
                    setUserRsvps (λ prev, <[roomId := userPayload]> prev);;
                    setSelectedRoomForRsvp None;;
                    (if String.eqb assignedStatus RSVP_REGISTERED then
                       setNotice ("Registered for " +:+ roomId
                                  +:+ ". It now appears in Your Shows.")
                     else
                       setNotice ("Added to waitlist for " +:+ roomId +:+ "."));;
                    setError "")
               (setError "Failed to register. Please retry.";;
                setNotice ""))
            (setRegisteringRoom "")
  | _, _ => mret tt
  end.

(** ** Locked-room countdown gate *)

Definition handleLockedTimerFinished : M unit :=
  u ← get_ui;
  match selectedLockedRoom u with
  | None => mret tt
  | Some selected =>
      let roomId := room_id selected in
      try_catch
        (latest ← store_op (λ d, ((d !! p_room roomId, d !! p_event_config roomId), d));
         let latestRoom :=
           {| room_id := roomId;
              room_isLive := truthy (latest.1 ≫= (.!! "isLive"));
              room_audienceIndex := ∅;
              room_eventConfig := default (room_eventConfig selected) latest.2;
              room_rsvpConfig := ∅ |} in
         t ← Date_now;
         let latestState := getRoomState latestRoom t in
         if bool_decide (latestState = upcoming) then
           setSelectedLockedRoom None;;
           setError "Room is still locked. Please wait a little more."
         else
           setSelectedLockedRoom None;;
           handleJoinRoom roomId)
        (setError "Unable to open room right now. Please retry.")
  end.

End Engine.

(** ** The specification's lifecycle rules

    The rules of the data model, in the order the specification lists
    them; [getRoomState] is compared with them below. *)
Definition resolve_rules (startMs endMs : Z) (liveFlag : bool) (now : Z) : RoomState :=
  if decide (startMs ≠ 0 ∧ now < startMs) then upcoming
  else if decide (endMs ≠ 0 ∧ now >= endMs) then ended
  else if liveFlag then current
  else if decide (startMs ≠ 0 ∧ now >= startMs ∧ (endMs = 0 ∨ now < endMs)) then current
  else upcoming.

(** A catalog entry whose schedule is the window [{startMs, endMs}]. *)
Definition room_of_window (startMs endMs : Z) (liveFlag : bool) : Room :=
  {| room_id := "room";
     room_isLive := liveFlag;
     room_audienceIndex := ∅;
     room_eventConfig := {[ "startTimeMs" := JNum startMs; "endTimeMs" := JNum endMs ]};
     room_rsvpConfig := ∅ |}.

(** ** The specification's view of the rsvp config

    The defaults [{open: true, capacity: 100, bookedCount: 0,
    waitlistCount: 0}]; the field [open] is stored as [rsvpOpen]. *)
Definition default_field (k : string) : option jsval :=
  if decide (k = "rsvpOpen") then Some (JBool true)
  else if decide (k = "capacity") then Some (JNum 100)
  else if decide (k = "bookedCount") then Some (JNum 0)
  else if decide (k = "waitlistCount") then Some (JNum 0)
  else None.

(** A field of the current config value (absent, or with missing
    fields), the missing ones filled from the defaults. *)
Definition filled_field (current : option obj) (k : string) : option jsval :=
  match current ≫= (.!! k) with
  | Some v => Some v
  | None => default_field k
  end.

Definition is_closed (current : option obj) : Prop :=
  filled_field current "rsvpOpen" = Some (JBool false).

#[global] Instance is_closed_dec current : Decision (is_closed current).
Proof. unfold is_closed. apply _. Defined.

Definition capacity_of `{JsBuiltins} (current : option obj) : Z :=
  number_or_0 (filled_field current "capacity").
Definition bookedCount_of `{JsBuiltins} (current : option obj) : Z :=
  number_or_0 (filled_field current "bookedCount").
Definition waitlistCount_of `{JsBuiltins} (current : option obj) : Z :=
  number_or_0 (filled_field current "waitlistCount").

(** The seat cap is reached. *)
Definition is_full `{JsBuiltins} (current : option obj) : Prop :=
  capacity_of current > 0 ∧ bookedCount_of current >= capacity_of current.

#[global] Instance is_full_dec `{JsBuiltins} current : Decision (is_full current).
Proof. unfold is_full. apply _. Defined.

(** [n] register transactions against one room, one after the other,
    each of them committed, with the statuses they assign; [None] when
    one of them does not commit.  The store applies committed
    transactions one at a time: each one that commits has read the value
    the one before it wrote. *)
Fixpoint committed_registers `{JsBuiltins} (roomId : string) (n : nat) (w : World)
    : option (list string * World) :=
  match n with
  | O => Some ([], w)
  | S n' =>
      match runTransaction (p_rsvp_config roomId) registerTx "" w with
      | (Ok (true, assignedStatus), w') =>
          match committed_registers roomId n' w' with
          | Some (statuses, w'') => Some (assignedStatus :: statuses, w'')
          | None => None
          end
      | _ => None
      end
  end.

(** The room-side and the user-side view of every (room, user) pair
    hold the same status. *)
Definition views_agree (d : Db) : Prop :=
  ∀ roomId ownerId,
    d !! p_room_rsvp roomId ownerId ≫= (.!! "status")
    = d !! p_user_rsvp ownerId roomId ≫= (.!! "status").

(** The index entry of the caller after a join, from the entry before
    it and what the environment answers. *)
Definition index_after_join (w : World) (roomId : string) (p : Profile)
    : option obj :=
  let before := db w !! p_audience_index roomId (joinUserId p) in
  let values := audienceIndexValues (joinUserId p) (displayName p) p
                  (str_or (role p) "audience") in
  if faults w 0%nat || faults w 1%nat then before
  else
    match before with
    | None =>
        if faults w 2%nat then None
        else Some (values (JNum (clock w 1%nat)) (clock w 2%nat) (push_keys w 0%nat) ∪ ∅)
    | Some old =>
        match old !! "firstSeen" with
        | Some firstSeen =>
            if faults w 2%nat then Some old
            else Some (values firstSeen (clock w 1%nat) (push_keys w 0%nat) ∪ old)
        | None => Some old
        end
    end.

(** The caller has an identity the catalog can key on. *)
Definition has_identity (profile : option Profile) : Prop :=
  ¬ (profileUserId profile = "" ∧ rsvpOwnerId profile = "").

(** ** Sample data *)

(** Builtins for the sample evaluations: no string parses as a date or
    as a number, and strings compare by code units. *)
Definition sample_builtins : JsBuiltins :=
  {| Date_parse := λ _, None;
     Number_of_string := λ _, None;
     localeCompare := λ a b,
       if String.eqb a b then 0 else if String.ltb a b then -1 else 1 |}.

Definition sample_profile : Profile :=
  {| role := "audience"; userId := "u1"; phone := "9999999999";
     phoneE164 := "+919999999999"; email := "9999999999@otp.local";
     unregistered := false; displayName := "Asha"; lastRoomId := "";
     firebaseUid := "" |}.

Definition sample_ui (selected : option Room) : Ui :=
  {| profile := Some sample_profile; userRsvps := ∅; joiningRoom := "";
     registeringRoom := ""; selectedRoomForRsvp := selected;
     selectedLockedRoom := selected; error := ""; notice := "";
     location := None; session := None |}.

(** A world whose clock reads [t0], [t0 + 1], ..., whose store always
    answers and whose transactions see no stale snapshot. *)
Definition sample_world (d : Db) (selected : option Room) (t0 : Z) : World :=
  {| db := d; ui := sample_ui selected;
     clock := λ n, t0 + Z.of_nat n;
     faults := λ _, false;
     push_keys := λ _, "k1";
     tx_cache := λ _, [] |}.

(** A room scheduled from 1000 to 2000, with the given id. *)
Definition scheduled_room (roomId : string) (audience : gmap string obj) : Room :=
  {| room_id := roomId; room_isLive := false; room_audienceIndex := audience;
     room_eventConfig := {[ "startTimeMs" := JNum 1000; "endTimeMs" := JNum 2000 ]};
     room_rsvpConfig := DEFAULT_RSVP_CONFIG |}.

(** A room the caller registered for, which has ended by 2500, and a
    room that opens at 5000, which the caller once joined. *)
Definition later_room : Room :=
  {| room_id := "r2"; room_isLive := false;
     room_audienceIndex := {[ "u1" := {[ "userId" := JStr "u1" ]} ]};
     room_eventConfig := {[ "startTimeMs" := JNum 5000; "endTimeMs" := JNum 6000 ]};
     room_rsvpConfig := DEFAULT_RSVP_CONFIG |}.

Definition sample_rsvps : gmap string obj :=
  {[ "r1" := {[ "status" := JStr "registered" ]} ]}.

(** Stores for the sample evaluations: a closed room, a room with two
    seats, a room whose schedule the store holds, and a cancelled
    registration of the sample caller. *)
Definition closed_room_db : Db :=
  {[ p_rsvp_config "r1" := {[ "rsvpOpen" := JBool false ]} ]}.

Definition two_seat_db : Db :=
  {[ p_rsvp_config "r1" := {[ "capacity" := JNum 2 ]} ]}.

Definition scheduled_db : Db :=
  {[ p_event_config "r1" :=
       {[ "startTimeMs" := JNum 1000; "endTimeMs" := JNum 2000 ]} ]}.

Definition cancelled_db : Db :=
  {[ p_room_rsvp "r1" "u1" := {[ "status" := JStr "cancelled" ]} ]}.

(** ** Session profile normalisation *)

(** [s.trim()], on ASCII strings. *)
Fixpoint ltrim (s : string) : string :=
  match s with
  | EmptyString => EmptyString
  | String a s' => if is_js_space a then ltrim s' else s
  end.

Fixpoint rtrim (s : string) : string :=
  match s with
  | EmptyString => EmptyString
  | String a s' =>
      match rtrim s' with
      | EmptyString => if is_js_space a then EmptyString else String a EmptyString
      | r => String a r
      end
  end.

Definition js_trim (s : string) : string := rtrim (ltrim s).

(** The object [normalizeProfile] is given: a stored or assembled
    profile, whose fields are strings when they are present. *)
Record ProfileBase := {
  base_role : option string;
  base_userId : option string;
  base_phone : option string;
  base_phoneE164 : option string;
  base_email : option string;
  base_unregistered : bool;
  base_displayName : option string;
  base_username : option string;
  base_lastRoomId : option string;
  base_firebaseUid : option string;
  base_uid : option string
}.

(** [a || b] where [a] is a possibly missing string. *)
Definition field_or (a : option string) (b : string) : string :=
  match a with
  | Some s => if String.eqb s "" then b else s
  | None => b
  end.

Definition normalizeProfile (base : ProfileBase) : Profile :=
  let phone := sanitizePhone (field_or (base_phone base) (field_or (base_phoneE164 base) "")) in
  let firebaseUid := field_or (base_firebaseUid base) (field_or (base_uid base) "") in
  {| role := field_or (base_role base) "audience";
     userId :=
       field_or (base_userId base)
         (if negb (String.eqb firebaseUid "") then firebaseUid
          else if negb (String.eqb phone "") then "USER-" +:+ phone else "");
     phone := phone;
     phoneE164 := field_or (base_phoneE164 base) (toE164India phone);
     email :=
       field_or (base_email base)
         (if negb (String.eqb phone "") then phone +:+ "@otp.local" else "");
     unregistered := base_unregistered base;
     displayName :=
       js_trim (field_or (base_displayName base) (field_or (base_username base) ""));
     lastRoomId := js_trim (field_or (base_lastRoomId base) "");
     firebaseUid := firebaseUid |}.

(** A profile read back from the session storage, as it was written. *)
Definition stored_profile (p : Profile) : ProfileBase :=
  {| base_role := Some (role p);
     base_userId := Some (userId p);
     base_phone := Some (phone p);
     base_phoneE164 := Some (phoneE164 p);
     base_email := Some (email p);
     base_unregistered := unregistered p;
     base_displayName := Some (displayName p);
     base_username := None;
     base_lastRoomId := Some (lastRoomId p);
     base_firebaseUid := Some (firebaseUid p);
     base_uid := None |}.

(** Every character is a decimal digit. *)
Fixpoint all_digits (s : string) : bool :=
  match s with
  | EmptyString => true
  | String a s' => is_digit a && all_digits s'
  end.

(** ** Labels and the room action *)

Definition formatCountdown (msRemaining : Z) : string :=
  let ms := Z.max 0 msRemaining in
  let totalSeconds := ms / 1000 in
  let days := totalSeconds / 86400 in
  let hours := (totalSeconds mod 86400) / 3600 in
  let minutes := (totalSeconds mod 3600) / 60 in
  let seconds := totalSeconds mod 60 in
  if days >? 0 then pretty days +:+ "d " +:+ pretty hours +:+ "h"
  else if hours >? 0 then pretty hours +:+ "h " +:+ pretty minutes +:+ "m"
  else if minutes >? 0 then pretty minutes +:+ "m " +:+ pretty seconds +:+ "s"
  else pretty seconds +:+ "s".

(** [String(status || '')] *)
Definition status_string (status : option jsval) : string :=
  if truthy status then from_option js_String "" status else "".

(** [getActionLabel(room)]; [nowMs] is the clock tick of the render that
    built the closure. *)
Definition getActionLabel `{JsBuiltins} (u : Ui) (nowMs : Z) (room : Room) : string :=
  if String.eqb (joiningRoom u) (room_id room) then "Entering..."
  else
    let roomState := getRoomState room nowMs in
    let rsvpStatus :=
      toLowerCase (status_string (userRsvps u !! room_id room ≫= (.!! "status"))) in
    let isRegistered := isActiveRsvpStatus (Some (JStr rsvpStatus)) in
    if bool_decide (roomState = ended) then "Show Ended"
    else if bool_decide (roomState = upcoming) then
      if negb isRegistered then "Register Slot"
      else
        let startTimeMs := (getRoomWindow room).1 in
        if truthyZ startTimeMs
        then "Locked - " +:+ formatCountdown (startTimeMs - nowMs)
        else "Locked"
    else if String.eqb rsvpStatus RSVP_WAITLISTED then "Waitlisted"
    else "Tap to Enter".

(** [handleRoomAction(room)]; the join it starts is run to its end. *)
Definition handleRoomAction `{JsBuiltins} (nowMs : Z) (room : Room) : M unit :=
  u ← get_ui;
  if negb (String.eqb (joiningRoom u) "") || negb (String.eqb (registeringRoom u) "")
  then mret tt
  else
    setError "";;
    setNotice "";;
    let roomState := getRoomState room nowMs in
    let isRegistered :=
      isActiveRsvpStatus (userRsvps u !! room_id room ≫= (.!! "status")) in
    if bool_decide (roomState = ended) then setError "This show has ended."
    else if bool_decide (roomState = upcoming) then
      if negb isRegistered then
        setSelectedLockedRoom None;;
        setSelectedRoomForRsvp (Some room)
      else
        setSelectedRoomForRsvp None;;
        setSelectedLockedRoom (Some room)
    else
      setSelectedLockedRoom None;;
      handleJoinRoom (room_id room).

(** At most one of the registration sheet and the waiting screen has a
    room. *)
Definition one_sheet (u : Ui) : Prop :=
  selectedRoomForRsvp u = None ∨ selectedLockedRoom u = None.

(** ** Catalog entries and the seat count *)

(** A room as the store holds it under [rooms/<id>]. *)
Record RoomDoc := {
  doc_isLive : option jsval;
  doc_audience_index : option (gmap string obj);
  doc_event_config : option obj;
  doc_rsvp_config : option obj
}.

(** The entry the rooms listener builds for one child of [rooms]. *)
Definition roomEntry (id : string) (room : RoomDoc) : Room :=
  {| room_id := id;
     room_isLive := truthy (doc_isLive room);
     room_audienceIndex := default ∅ (doc_audience_index room);
     room_eventConfig := default ∅ (doc_event_config room);
     room_rsvpConfig := default ∅ (doc_rsvp_config room) ∪ DEFAULT_RSVP_CONFIG |}.

(** [Number(v || 0)]: [None] stands for [NaN]. *)
Definition number_of_or_0 `{JsBuiltins} (v : option jsval) : option Z :=
  js_Number (if truthy v then v else Some (JNum 0)).

(** The seat count of the registration sheet; [None] stands for [NaN]. *)
Definition seatsLeft `{JsBuiltins} (selectedRoomForRsvp : option Room) : option Z :=
  let selectedRsvpCfg : obj :=
    default ∅ (room_rsvpConfig <$> selectedRoomForRsvp) ∪ DEFAULT_RSVP_CONFIG in
  match number_of_or_0 (selectedRsvpCfg !! "capacity"),
        number_of_or_0 (selectedRsvpCfg !! "bookedCount") with
  | Some capacity, Some bookedCount => Some (Z.max 0 (capacity - bookedCount))
  | _, _ => None
  end.

(** ** The waiting screen's countdown *)

Inductive Tick :=
  | NoTimer
  | TimerFinished
  | TimeLeft (hms : option (Z * Z * Z)).

(** One run of the interval callback of the waiting screen at [now];
    [new Date(nextEvent).getTime()] is [Date.parse(nextEvent)], and with
    a [NaN] target the three fields shown are [NaN] ([TimeLeft None]). *)
Definition waitingTick `{JsBuiltins} (nextEvent : option string) (now : Z) : Tick :=
  match nextEvent with
  | None => NoTimer
  | Some nextEvent =>
      if String.eqb nextEvent "" then NoTimer
      else
        match Date_parse nextEvent with
        | None => TimeLeft None
        | Some target =>
            let distance := target - now in
            if distance <? 0 then TimerFinished
            else
              let hours := distance / (1000 * 60 * 60) in
              let minutes := (distance mod (1000 * 60 * 60)) / (1000 * 60) in
              let seconds := (distance mod (1000 * 60)) / 1000 in
              TimeLeft (Some (hours, minutes, seconds))
        end
  end.

(** The order in which a room passes through its states. *)
Definition phase (state : RoomState) : Z :=
  match state with
  | upcoming => 0
  | current => 1
  | ended => 2
  end.
(** No flow is in progress: the guard of the room action is open. *)
Definition idle (u : Ui) : Prop :=
  joiningRoom u = "" ∧ registeringRoom u = "".
(** A string without leading white space. *)
Definition starts_clean (s : string) : Prop :=
  match s with
  | EmptyString => True
  | String a _ => is_js_space a = false
  end.

(** ** The order of "Your Shows" *)

(** [localeCompare] orders ids as a total preorder: the condition under
    which the comparator of [userRooms.sort] is consistent and the sort
    is specified to sort. *)
Definition localeCompare_consistent `{JsBuiltins} : Prop :=
  (∀ a b, localeCompare a b <= 0 ∨ localeCompare b a <= 0)
  ∧ (∀ a b c, localeCompare a b <= 0 → localeCompare b c <= 0 →
              localeCompare a c <= 0).

(** The room the comparator puts first: the one visited last. *)
Definition is_pinned (lastRoomId : string) (r : Room) : Prop :=
  lastRoomId ≠ "" ∧ room_id r = lastRoomId.

(** [a] is not after [b] by state rank, then by start time, a room
    without one counting as starting last. *)
Definition rank_then_start `{JsBuiltins} (nowMs : Z) (a b : Room) : Prop :=
  roomStateRank (getRoomState a nowMs) < roomStateRank (getRoomState b nowMs)
  ∨ (roomStateRank (getRoomState a nowMs) = roomStateRank (getRoomState b nowMs)
     ∧ start_or_max (getRoomWindow a).1 <= start_or_max (getRoomWindow b).1).


(** ** More sample values *)

(** A session record that holds a phone as the user typed it, and
    nothing else. *)
Definition sample_base : ProfileBase :=
  {| base_role := None; base_userId := None;
     base_phone := Some "+91 99999 99999"; base_phoneE164 := None;
     base_email := None; base_unregistered := false;
     base_displayName := None; base_username := None;
     base_lastRoomId := None; base_firebaseUid := None; base_uid := None |}.

(** The sample page with the registration sheet open for [room], and
    the waiting screen closed. *)
Definition sheet_world (d : Db) (room : Room) (t0 : Z) : World :=
  {| db := d;
     ui := {| profile := Some sample_profile; userRsvps := ∅; joiningRoom := "";
              registeringRoom := ""; selectedRoomForRsvp := Some room;
              selectedLockedRoom := None; error := ""; notice := "";
              location := None; session := None |};
     clock := λ n, t0 + Z.of_nat n;
     faults := λ _, false;
     push_keys := λ _, "k1";
     tx_cache := λ _, [] |}.

(** The sample world with the store failing at its [k]-th round trip. *)
Definition failing_world (d : Db) (selected : option Room) (t0 : Z) (k : nat)
    : World :=
  {| db := d; ui := sample_ui selected;
     clock := λ n, t0 + Z.of_nat n;
     faults := λ n, Nat.eqb n k;
     push_keys := λ _, "k1";
     tx_cache := λ _, [] |}.

(** A stored room with two seats, both taken. *)
Definition full_doc : RoomDoc :=
  {| doc_isLive := None; doc_audience_index := None; doc_event_config := None;
     doc_rsvp_config :=
       Some {[ "capacity" := JNum 2; "bookedCount" := JNum 2 ]} |}.

(** Builtins that parse one date, one second after the epoch. *)
Definition epoch_builtins : JsBuiltins :=
  {| Date_parse := λ s,
       if String.eqb s "1970-01-01T00:00:01.000Z" then Some 1000 else None;
     Number_of_string := λ _, None;
     localeCompare := λ a b,
       if String.eqb a b then 0 else if String.ltb a b then -1 else 1 |}.

Section Properties.
Context `{JsBuiltins}.

Lemma truthyZ_true z : truthyZ z = true ↔ z ≠ 0.
Proof. unfold truthyZ. destruct (Z.eqb_spec z 0); simpl; split; congruence. Qed.

Lemma truthyZ_false z : truthyZ z = false ↔ z = 0.
Proof. unfold truthyZ. destruct (Z.eqb_spec z 0); simpl; split; congruence. Qed.

Lemma getRoomWindow_of_window s e live :
  getRoomWindow (room_of_window s e live) = (s, e).
Proof. reflexivity. Qed.

Lemma getRoomState_rules room now :
  getRoomState room now
  = resolve_rules (getRoomWindow room).1 (getRoomWindow room).2 (room_isLive room) now.
Proof.
  unfold getRoomState, resolve_rules.
  destruct (getRoomWindow room) as [s e]; simpl.
  destruct (truthyZ s) eqn:Hs, (truthyZ e) eqn:He;
    first [apply truthyZ_true in Hs | apply truthyZ_false in Hs];
    first [apply truthyZ_true in He | apply truthyZ_false in He];
    destruct (Z.ltb_spec now s), (Z.geb_spec now e), (Z.geb_spec now s),
      (Z.ltb_spec now e), (room_isLive room); simpl;
    repeat case_decide; try reflexivity; exfalso; lia.
Qed.

(** C6. The lifecycle resolver returns the first matching rule of the
    specification (UPCOMING before the start, else ENDED from the end on,
    else CURRENT when live, else CURRENT inside the window, else
    UPCOMING), for every room; every window is the window of some room;
    a live flag never turns an ENDED verdict into another one; and the
    four sample evaluations of the specification hold. *)
Theorem C6_lifecycle_first_matching_rule :
  (∀ room now,
      getRoomState room now
      = resolve_rules (getRoomWindow room).1 (getRoomWindow room).2
          (room_isLive room) now)
  ∧ (∀ s e live now,
      getRoomWindow (room_of_window s e live) = (s, e)
      ∧ getRoomState (room_of_window s e live) now = resolve_rules s e live now)
  ∧ (∀ s e now,
      getRoomState (room_of_window s e false) now = ended
      → getRoomState (room_of_window s e true) now = ended)
  ∧ getRoomState (room_of_window 1000 2000 false) 500 = upcoming
  ∧ getRoomState (room_of_window 1000 2000 false) 1500 = current
  ∧ getRoomState (room_of_window 1000 2000 false) 2000 = ended
  ∧ (∀ now, getRoomState (room_of_window 0 0 true) now = current).
Proof.
  split; [exact getRoomState_rules|].
  split.
  { intros s e live now. split; [reflexivity|].
    rewrite getRoomState_rules, getRoomWindow_of_window. reflexivity. }
  split.
  { intros s e now. rewrite !getRoomState_rules, !getRoomWindow_of_window. simpl.
    unfold resolve_rules. repeat case_decide; congruence. }
  split; [reflexivity|]. split; [reflexivity|]. split; [reflexivity|].
  intros now. rewrite getRoomState_rules, getRoomWindow_of_window. simpl.
  unfold resolve_rules. repeat case_decide; try reflexivity; lia.
Qed.

(** *** The register transaction *)

Lemma DEFAULT_RSVP_CONFIG_lookup k :
  DEFAULT_RSVP_CONFIG !! k = default_field k.
Proof.
  unfold DEFAULT_RSVP_CONFIG, default_field.
  repeat (rewrite lookup_insert; case_decide; subst; [reflexivity|]).
  rewrite lookup_singleton.
  repeat case_decide; congruence.
Qed.

Lemma filled_lookup current k :
  (default ∅ current ∪ DEFAULT_RSVP_CONFIG) !! k = filled_field current k.
Proof.
  unfold filled_field. rewrite lookup_union, DEFAULT_RSVP_CONFIG_lookup.
  destruct current as [c|]; simpl.
  - destruct (c !! k), (default_field k); reflexivity.
  - rewrite lookup_empty. destruct (default_field k); reflexivity.
Qed.

Lemma number_or_0_num z : number_or_0 (Some (JNum z)) = z.
Proof.
  unfold number_or_0; simpl. destruct (truthyZ z) eqn:E; [reflexivity|].
  apply truthyZ_false in E. congruence.
Qed.

(** What [registerTx] returns, by cases. *)
Lemma registerTx_cases current s0 :
  registerTx current s0 =
    let cfg := default ∅ current ∪ DEFAULT_RSVP_CONFIG in
    if decide (is_closed current) then (None, s0)
    else if decide (is_full current)
    then (Some (<["waitlistCount" := JNum (waitlistCount_of current + 1)]> cfg),
          RSVP_WAITLISTED)
    else (Some (<["bookedCount" := JNum (bookedCount_of current + 1)]> cfg),
          RSVP_REGISTERED).
Proof.
  unfold registerTx, is_closed, is_full, capacity_of, bookedCount_of, waitlistCount_of.
  cbv zeta. rewrite !filled_lookup.
  destruct (decide (filled_field current "rsvpOpen" = Some (JBool false)));
    [reflexivity|].
  set (c := number_or_0 (filled_field current "capacity")).
  set (b := number_or_0 (filled_field current "bookedCount")).
  destruct (Z.gtb_spec c 0), (Z.geb_spec b c); simpl;
    case_decide; try reflexivity; exfalso; lia.
Qed.

(** C2. The transaction body reads every field of the current config
    value with the defaults filled in; it aborts exactly when the filled
    [rsvpOpen] is [false]; otherwise it changes one field: when the seat
    cap is reached it adds one to [waitlistCount] and assigns WAITLISTED,
    else it adds one to [bookedCount] and assigns REGISTERED, and every
    other field of the returned config is the filled field. *)
Theorem C2_register_tx_one_increment (current : option obj) (s0 : string) :
  match registerTx current s0 with
  | (None, s) => is_closed current ∧ s = s0
  | (Some cfg', s) =>
      ¬ is_closed current
      ∧ if decide (capacity_of current > 0
                   ∧ bookedCount_of current >= capacity_of current)
        then s = "waitlisted"
             ∧ cfg' !! "waitlistCount" = Some (JNum (waitlistCount_of current + 1))
             ∧ ∀ k, k ≠ "waitlistCount" → cfg' !! k = filled_field current k
        else s = "registered"
             ∧ cfg' !! "bookedCount" = Some (JNum (bookedCount_of current + 1))
             ∧ ∀ k, k ≠ "bookedCount" → cfg' !! k = filled_field current k
  end
  ∧ filled_field None "rsvpOpen" = Some (JBool true)
  ∧ (capacity_of None, bookedCount_of None, waitlistCount_of None) = (100, 0, 0)
  ∧ ∀ z, number_or_0 (Some (JNum z)) = z.
Proof.
  split; [|split; [reflexivity|split; [reflexivity|exact number_or_0_num]]].
  rewrite registerTx_cases. cbv zeta.
  destruct (decide (is_closed current)) as [Hc|Hc]; [split; [exact Hc|reflexivity]|].
  unfold is_full.
  destruct (decide (capacity_of current > 0
                    ∧ bookedCount_of current >= capacity_of current)).
  - split; [exact Hc|]. split; [reflexivity|]. split.
    + apply lookup_insert_eq.
    + intros k Hk. rewrite lookup_insert_ne by congruence. apply filled_lookup.
  - split; [exact Hc|]. split; [reflexivity|]. split.
    + apply lookup_insert_eq.
    + intros k Hk. rewrite lookup_insert_ne by congruence. apply filled_lookup.
Qed.

Lemma filled_after_insert current k0 v k :
  filled_field (Some (<[k0 := v]> (default ∅ current ∪ DEFAULT_RSVP_CONFIG))) k
  = if decide (k0 = k) then Some v else filled_field current k.
Proof.
  unfold filled_field at 1. simpl. rewrite lookup_insert.
  case_decide; [reflexivity|]. rewrite filled_lookup.
  destruct (filled_field current k) eqn:E; [reflexivity|].
  unfold filled_field in E. destruct (current ≫= _); [discriminate|exact E].
Qed.

(** A committed step of the ledger, on the counters. *)
Lemma registerTx_counters current s0 cfg' s :
  registerTx current s0 = (Some cfg', s) →
  capacity_of (Some cfg') = capacity_of current
  ∧ ((is_full current ∧ s = RSVP_WAITLISTED
      ∧ bookedCount_of (Some cfg') = bookedCount_of current
      ∧ waitlistCount_of (Some cfg') = waitlistCount_of current + 1)
     ∨ (¬ is_full current ∧ s = RSVP_REGISTERED
        ∧ bookedCount_of (Some cfg') = bookedCount_of current + 1
        ∧ waitlistCount_of (Some cfg') = waitlistCount_of current)).
Proof.
  rewrite registerTx_cases. cbv zeta.
  destruct (decide (is_closed current)); [discriminate|].
  destruct (decide (is_full current)) as [Hf|Hf]; intros [= <- <-];
    unfold capacity_of, bookedCount_of, waitlistCount_of;
    rewrite !filled_after_insert; simpl; rewrite ?number_or_0_num;
    (split; [reflexivity|]); [left|right]; (split; [assumption|auto]).
Qed.

Lemma registerTx_status_indep current s0 s1 :
  registerTx current s0 = (None, s0) ∧ registerTx current s1 = (None, s1)
  ∨ ∃ cfg' s, registerTx current s0 = (Some cfg', s)
               ∧ registerTx current s1 = (Some cfg', s).
Proof.
  rewrite !registerTx_cases. cbv zeta.
  destruct (decide (is_closed current)); [left; split; reflexivity|].
  right. destruct (decide (is_full current)); eauto.
Qed.

(** A transaction that commits wrote what its update function returns
    on the value the store held. *)
Lemma runTransaction_committed p s w st w' :
  runTransaction p registerTx s w = (Ok (true, st), w') →
  ∃ cfg', registerTx (db w !! p) "" = (Some cfg', st)
          ∧ db w' = <[p := cfg']> (db w)
          ∧ faults w' = next (faults w) ∧ tx_cache w' = next (tx_cache w).
Proof.
  unfold runTransaction. destruct (faults w 0%nat); [discriminate|].
  destruct (tx_attempts registerTx (tx_cache w 0%nat) s) as [[|] s1]; [discriminate|].
  destruct (registerTx_status_indep (db w !! p) s1 "") as [[E _]|(cfg' & s2 & E & E')];
    rewrite E; [discriminate|].
  intros [= <- <-]. exists cfg'. rewrite E'. simpl. auto.
Qed.

(** With a store that answers and no stale snapshot, a transaction on an
    open room commits. *)
Lemma runTransaction_commits p s w :
  faults w 0%nat = false → tx_cache w 0%nat = [] → ¬ is_closed (db w !! p) →
  ∃ st w', runTransaction p registerTx s w = (Ok (true, st), w').
Proof.
  intros Hf Hc Hopen. unfold runTransaction. rewrite Hf, Hc. simpl.
  rewrite registerTx_cases. cbv zeta.
  destruct (decide (is_closed (db w !! p))); [contradiction|].
  destruct (decide (is_full (db w !! p))); eauto.
Qed.

Lemma registerTx_keeps_open current s0 cfg' s :
  registerTx current s0 = (Some cfg', s) → ¬ is_closed (Some cfg').
Proof.
  rewrite registerTx_cases. cbv zeta.
  destruct (decide (is_closed current)) as [|Hopen]; [discriminate|].
  destruct (decide (is_full current)); intros [= <- <-];
    unfold is_closed; rewrite filled_after_insert; simpl; exact Hopen.
Qed.

(** The ledger after [n] committed registrations, from any state that
    respects the cap: the first free seats are REGISTERED, the rest
    WAITLISTED. *)
Lemma committed_registers_counters roomId n : ∀ w statuses w',
  let cur := db w !! p_rsvp_config roomId in
  capacity_of cur > 0 → 0 <= bookedCount_of cur <= capacity_of cur →
  committed_registers roomId n w = Some (statuses, w') →
  let free := Z.to_nat (capacity_of cur - bookedCount_of cur) in
  let fin : option obj := db w' !! p_rsvp_config roomId in
  statuses = (replicate (n `min` free) RSVP_REGISTERED
              ++ replicate (n - free) RSVP_WAITLISTED)%list
  ∧ capacity_of fin = capacity_of cur
  ∧ bookedCount_of fin = bookedCount_of cur + Z.of_nat (n `min` free)
  ∧ waitlistCount_of fin = waitlistCount_of cur + Z.of_nat (n - free).
Proof.
  induction n as [|n IH]; intros w statuses w' cur Hcap Hb; simpl.
  - intros [= <- <-]. simpl. rewrite !Z.add_0_r. repeat split; reflexivity.
  - destruct (runTransaction _ _ _ w) as [[[[|] st]|] w1] eqn:Etx; try discriminate.
    apply runTransaction_committed in Etx as (cfg' & Etx & Hdb & _ & _).
    destruct (committed_registers roomId n w1) as [[l w2]|] eqn:Erest; [|discriminate].
    intros [= <- <-].
    apply registerTx_counters in Etx as [Hc Hstep]. fold cur in Hc, Hstep.
    assert (Hcur1 : db w1 !! p_rsvp_config roomId = Some cfg')
      by (rewrite Hdb; apply lookup_insert_eq).
    specialize (IH w1 l w2). cbv zeta in IH. rewrite Hcur1 in IH.
    unfold is_full in Hstep.
    destruct Hstep as [(Hfull & -> & Hb' & Hw')|(Hfree & -> & Hb' & Hw')].
    + destruct IH as (-> & IH1 & IH2 & IH3); [lia|lia|exact Erest|].
      rewrite Hc, Hb', Hw' in *.
      replace (Z.to_nat (capacity_of cur - bookedCount_of cur)) with 0%nat in * by lia.
      rewrite Nat.min_0_r, Nat.sub_0_r in *. simpl.
      repeat split; try reflexivity; lia.
    + destruct IH as (-> & IH1 & IH2 & IH3); [lia|lia|exact Erest|].
      rewrite Hc, Hb', Hw' in *.
      destruct (Z.to_nat (capacity_of cur - bookedCount_of cur)) as [|free] eqn:Efree;
        [lia|].
      replace (Z.to_nat (capacity_of cur - (bookedCount_of cur + 1))) with free in * by lia.
      simpl. repeat split; try reflexivity; lia.
Qed.

Lemma committed_registers_total roomId n : ∀ w,
  (∀ i, faults w i = false) → (∀ i, tx_cache w i = []) →
  ¬ is_closed (db w !! p_rsvp_config roomId) →
  is_Some (committed_registers roomId n w).
Proof.
  induction n as [|n IH]; intros w Hf Hc Hopen; simpl; [eauto|].
  destruct (runTransaction_commits (p_rsvp_config roomId) "" w (Hf _) (Hc _) Hopen)
    as (st & w1 & Etx).
  rewrite Etx.
  apply runTransaction_committed in Etx as (cfg' & Etx & Hdb & Hf1 & Hc1).
  destruct (IH w1) as [[l w2] ->]; [| | |eauto].
  - intros i. rewrite Hf1. apply Hf.
  - intros i. rewrite Hc1. apply Hc.
  - rewrite Hdb, lookup_insert_eq. eapply registerTx_keeps_open, Etx.
Qed.

(** C1. One run of the register transaction body on a config with a
    positive capacity and [bookedCount <= capacity] keeps the capacity
    and keeps [bookedCount <= capacity], and assigns WAITLISTED whenever
    [bookedCount >= capacity].  Hence [N] committed register
    transactions against a room with capacity [C > 0] and no booking,
    [N > C], assign REGISTERED to [C] callers and WAITLISTED to the
    other [N - C], and leave [bookedCount = C] and [N - C] more waitlist
    entries than before, that is [waitlistCount = N - C] for a room
    that starts with none; and with a store that answers they do all
    commit when the room is open. *)
Theorem C1_capacity_never_exceeded :
  (∀ current s0 cfg' s,
      capacity_of current > 0 → bookedCount_of current <= capacity_of current →
      registerTx current s0 = (Some cfg', s) →
      capacity_of (Some cfg') = capacity_of current
      ∧ bookedCount_of (Some cfg') <= capacity_of (Some cfg')
      ∧ (bookedCount_of current >= capacity_of current → s = "waitlisted")
      ∧ (bookedCount_of current < capacity_of current → s = "registered"))
  ∧ (∀ roomId (w : World) (C : Z) (N : nat),
      let cur := db w !! p_rsvp_config roomId in
      capacity_of cur = C → C > 0 → bookedCount_of cur = 0 → Z.of_nat N > C →
      (∀ statuses w',
          committed_registers roomId N w = Some (statuses, w') →
          statuses = (replicate (Z.to_nat C) "registered"
                      ++ replicate (N - Z.to_nat C) "waitlisted")%list
          ∧ bookedCount_of (db w' !! p_rsvp_config roomId) = C
          ∧ waitlistCount_of (db w' !! p_rsvp_config roomId)
            = waitlistCount_of cur + (Z.of_nat N - C)
          ∧ (waitlistCount_of cur = 0 →
             waitlistCount_of (db w' !! p_rsvp_config roomId) = Z.of_nat N - C))
      ∧ ((∀ i, faults w i = false) → (∀ i, tx_cache w i = []) → ¬ is_closed cur →
         is_Some (committed_registers roomId N w))).
Proof.
  split.
  - intros current s0 cfg' s Hcap Hb Etx.
    apply registerTx_counters in Etx as [Hc Hstep]. unfold is_full in Hstep.
    rewrite Hc.
    destruct Hstep as [(Hfull & -> & Hb' & _)|(Hfree & -> & Hb' & _)]; rewrite Hb';
      repeat split; try reflexivity; try lia; intros; exfalso; lia.
  - intros roomId w C N cur HC Hpos Hb HN. split.
    + intros statuses w' Erun.
      apply committed_registers_counters in Erun; fold cur; fold cur in Erun;
        [|lia|lia].
      cbv zeta in Erun. rewrite HC, Hb, Z.sub_0_r in Erun.
      destruct Erun as (-> & _ & -> & ->).
      replace (N `min` Z.to_nat C)%nat with (Z.to_nat C) by lia.
      repeat split; lia.
    + intros Hf Hc Hopen. apply committed_registers_total; assumption.
Qed.

(** *** The register handler *)

Lemma registerTx_closed current s :
  is_closed current → registerTx current s = (None, s).
Proof.
  intros Hc. rewrite registerTx_cases. cbv zeta.
  destruct (decide (is_closed current)); [reflexivity|contradiction].
Qed.

Lemma registerTx_assigns current s cfg' st :
  registerTx current s = (Some cfg', st) →
  st = RSVP_REGISTERED ∨ st = RSVP_WAITLISTED.
Proof.
  rewrite registerTx_cases. cbv zeta.
  destruct (decide (is_closed current)); [discriminate|].
  destruct (decide (is_full current)); intros [= <- <-]; auto.
Qed.

Lemma tx_attempts_aborted snapshots : ∀ s s',
  tx_attempts registerTx snapshots s = (true, s') → Exists is_closed snapshots.
Proof.
  induction snapshots as [|v rest IH]; intros s s'; simpl; [discriminate|].
  rewrite registerTx_cases. cbv zeta.
  destruct (decide (is_closed v)); [intros _; left; assumption|].
  destruct (decide (is_full v)); intros E; right; eapply IH, E.
Qed.

(** What a register transaction does to the world: it throws, or it
    aborts on a closed config (stale or current), and the store is as
    before; or it commits what the update function returns on the value
    the store held. *)
Lemma runTransaction_registerTx p s w :
  ∃ r w', runTransaction p registerTx s w = (r, w')
    ∧ ui w' = ui w ∧ clock w' = clock w ∧ faults w' = next (faults w)
    ∧ push_keys w' = push_keys w ∧ tx_cache w' = next (tx_cache w)
    ∧ ((db w' = db w
        ∧ (r = Thrown ∧ faults w 0%nat = true
           ∨ ∃ s', r = Ok (false, s') ∧ faults w 0%nat = false
                   ∧ (Exists is_closed (tx_cache w 0%nat)
                      ∨ is_closed (db w !! p))))
       ∨ (∃ cfg' st, r = Ok (true, st)
            ∧ faults w 0%nat = false
            ∧ registerTx (db w !! p) "" = (Some cfg', st)
            ∧ db w' = <[p := cfg']> (db w))).
Proof.
  unfold runTransaction. destruct (faults w 0%nat) eqn:Hf.
  { eexists _, _. split; [reflexivity|]. simpl. repeat (split; [reflexivity|]).
    left. split; [reflexivity|]. left. auto. }
  destruct (tx_attempts registerTx (tx_cache w 0%nat) s) as [[|] s1] eqn:Ea.
  { apply tx_attempts_aborted in Ea.
    eexists _, _. split; [reflexivity|]. simpl. repeat (split; [reflexivity|]).
    left. split; [reflexivity|]. right. eauto. }
  destruct (registerTx_status_indep (db w !! p) s1 "") as [[E _]|(cfg' & s2 & E & E')];
    rewrite E.
  - eexists _, _. split; [reflexivity|]. simpl. repeat (split; [reflexivity|]).
    left. split; [reflexivity|]. right. exists s1. repeat split. right.
    destruct (decide (is_closed (db w !! p))) as [|Hopen]; [assumption|].
    rewrite registerTx_cases in E. cbv zeta in E.
    destruct (decide (is_closed (db w !! p))); [contradiction|].
    destruct (decide (is_full (db w !! p))); discriminate.
  - eexists _, _. split; [reflexivity|]. simpl. repeat (split; [reflexivity|]).
    right. eauto 10.
Qed.

(** Unfolding of the handlers' plumbing, down to the store and the
    environment. *)
Ltac unfold_monad :=
  cbv beta delta
    [mbind mret M_bind M_ret try_catch try_finally get_ui modify_ui Date_now
     push_key store_op db_get db_set db_update db_multi_update defined next
     setProfile setUserRsvps setJoiningRoom setRegisteringRoom
     setSelectedRoomForRsvp setSelectedLockedRoom setError setNotice navigate
     localStorage_setSession];
  cbn beta iota zeta delta
    [setUi_profile setUi_userRsvps setUi_joiningRoom setUi_registeringRoom
     setUi_selectedRoomForRsvp setUi_selectedLockedRoom setUi_error
     setUi_notice setUi_location setUi_session
     db ui clock faults push_keys tx_cache next
     profile userRsvps joiningRoom registeringRoom selectedRoomForRsvp
     selectedLockedRoom error notice location session
     fst snd foldr negb orb andb option_bind].

Ltac tx_step :=
  match goal with
  | |- context [runTransaction ?p registerTx ?s ?w] =>
      let r := fresh "r" in
      let w' := fresh "w'" in
      let Etx := fresh "Etx" in
      let Hui := fresh "Hui" in
      let Hcl := fresh "Hcl" in
      let Hfa := fresh "Hfa" in
      let Hpk := fresh "Hpk" in
      let Hdb := fresh "Hdb" in
      let Htc := fresh "Htc" in
      destruct (runTransaction_registerTx p s w)
        as (r & w' & Etx & Hui & Hcl & Hfa & Hpk & Htc & Hdb);
      rewrite Etx; clear Etx;
      destruct w';
      cbn [db ui clock faults push_keys tx_cache next]
        in Hui, Hcl, Hfa, Hpk, Htc, Hdb;
      subst
  end.

(** The next [match] of the goal whose scrutinee holds no other one. *)
Ltac case_inner :=
  match goal with
  | |- context [match ?x with _ => _ end] =>
      lazymatch x with
      | context [match _ with _ => _ end] => fail
      | _ => destruct x eqn:?
      end
  end.

(** One step of a handler: unfold the plumbing, then split on the next
    thing the environment or the store decides. *)
Ltac handler_step :=
  unfold_monad;
  first
    [ tx_step
    | match goal with
      | H : _ ∨ _ |- _ => destruct H
      | H : ∃ _, _ |- _ => destruct H
      | H : _ ∧ _ |- _ => destruct H
      | H : (_, _) = (_, _) |- _ => injection H as ? ?
      | H : Ok _ = Ok _ |- _ => injection H as ?
      | H : Ok _ = Thrown |- _ => discriminate H
      | H : Thrown = Ok _ |- _ => discriminate H
      | H : true = false |- _ => discriminate H
      | H : false = true |- _ => discriminate H
      end
    | progress subst
    | case_inner ].

Ltac run_handler := repeat handler_step; unfold_monad.

(** C3. A register call for a room whose rsvp config is closed changes
    nothing in the store: no counter moves and no room-side or user-side
    record is written, nor is the local registration set touched; and
    when the call reaches the transaction (a caller with an identity and
    no active record, the room still UPCOMING, the store answering), the
    transaction aborts and the call is refused with the closed message. *)
Theorem C3_closed_room_refuses (w : World) (room : Room) :
  selectedRoomForRsvp (ui w) = Some room →
  is_closed (db w !! p_rsvp_config (room_id room)) →
  db (handleRegisterForSelectedRoom w).2 = db w
  ∧ userRsvps (ui (handleRegisterForSelectedRoom w).2) = userRsvps (ui w)
  ∧ (∀ p,
      profile (ui w) = Some p → rsvpOwnerId (Some p) ≠ "" →
      getRoomState room (clock w 0%nat) = upcoming →
      faults w 0%nat = false → faults w 1%nat = false →
      isActiveRsvpStatus
        (db w !! p_room_rsvp (room_id room) (rsvpOwnerId (Some p))
         ≫= (.!! "status")) = false →
      error (ui (handleRegisterForSelectedRoom w).2)
      = "RSVP is currently closed for this room."
      ∧ notice (ui (handleRegisterForSelectedRoom w).2) = "").
Proof.
  intros Hsel Hclosed.
  assert (Hno : ∀ s cfg' st,
             registerTx (db w !! p_rsvp_config (room_id room)) s = (Some cfg', st)
             → False)
    by (intros s cfg' st; rewrite registerTx_closed by assumption; discriminate).
  split; [|split].
  - unfold handleRegisterForSelectedRoom. unfold_monad. rewrite Hsel.
    run_handler; try reflexivity; exfalso; eapply Hno; eassumption.
  - unfold handleRegisterForSelectedRoom. unfold_monad. rewrite Hsel.
    run_handler; try reflexivity; exfalso; eapply Hno; eassumption.
  - intros p Hp Howner Hstate Hf0 Hf1 Hinactive.
    unfold handleRegisterForSelectedRoom. unfold_monad. rewrite Hsel, Hp.
    apply String.eqb_neq in Howner. rewrite Howner. unfold_monad.
    rewrite Hstate, bool_decide_eq_true_2 by reflexivity. unfold_monad.
    rewrite Hf0. unfold_monad.
    change (option_bind obj jsval (lookup "status") ?x) with (x ≫= (.!! "status")).
    rewrite Hinactive.
    run_handler; unfold next in *; try (split; reflexivity); try congruence;
      exfalso; eapply Hno; eassumption.
Qed.

Lemma roomRsvpPayload_status st now p o :
  roomRsvpPayload st now p o !! "status" = Some (JStr st).
Proof. unfold roomRsvpPayload. apply lookup_insert_eq. Qed.

Lemma userRsvpPayload_status st rid s e now :
  userRsvpPayload st rid s e now !! "status" = Some (JStr st).
Proof. unfold userRsvpPayload. apply lookup_insert_eq. Qed.

Lemma isActiveRsvpStatus_assigned st :
  st = RSVP_REGISTERED ∨ st = RSVP_WAITLISTED →
  isActiveRsvpStatus (Some (JStr st)) = true.
Proof. intros [->| ->]; reflexivity. Qed.

Lemma isActiveRsvpStatus_string s :
  isActiveRsvpStatus (Some (JStr s)) = true
  ↔ toLowerCase s = "registered" ∨ toLowerCase s = "waitlisted".
Proof.
  unfold isActiveRsvpStatus, truthy.
  replace (toLowerCase (if negb (String.eqb s "") then from_option js_String "" (Some (JStr s)) else ""))
    with (toLowerCase s)
    by (destruct (String.eqb_spec s ""); subst; reflexivity).
  rewrite orb_true_iff, !String.eqb_eq. reflexivity.
Qed.

(** The idempotent short-circuit: with an active record for the pair,
    the call leaves the store as it is and runs no transaction. *)
Lemma register_short_circuit w room p :
  profile (ui w) = Some p → selectedRoomForRsvp (ui w) = Some room →
  isActiveRsvpStatus
    (db w !! p_room_rsvp (room_id room) (rsvpOwnerId (Some p))
     ≫= (.!! "status")) = true →
  db (handleRegisterForSelectedRoom w).2 = db w
  ∧ tx_cache (handleRegisterForSelectedRoom w).2 = tx_cache w
  ∧ (rsvpOwnerId (Some p) ≠ "" →
     getRoomState room (clock w 0%nat) = upcoming → faults w 0%nat = false →
     notice (ui (handleRegisterForSelectedRoom w).2)
     = "Already "
       +:+ from_option js_String "undefined"
             (db w !! p_room_rsvp (room_id room) (rsvpOwnerId (Some p))
              ≫= (.!! "status"))
       +:+ " for " +:+ room_id room +:+ "."
     ∧ error (ui (handleRegisterForSelectedRoom w).2) = "").
Proof.
  intros Hp Hsel Hactive.
  unfold handleRegisterForSelectedRoom. unfold_monad. rewrite Hsel, Hp.
  destruct (String.eqb_spec (rsvpOwnerId (Some p)) ""); unfold_monad;
    [repeat split; try reflexivity; intros; contradiction|].
  destruct (bool_decide_reflect (getRoomState room (clock w 0%nat) = upcoming));
    unfold_monad; [|repeat split; try reflexivity; intros; contradiction].
  destruct (faults w 0%nat); unfold_monad;
    [repeat split; try reflexivity; intros; discriminate|].
  change (option_bind obj jsval (lookup "status") ?x) with (x ≫= (.!! "status")).
  rewrite Hactive. unfold_monad. repeat split; reflexivity.
Qed.

(** The calls that end with a registration: the dual write holds the
    assigned status, which is REGISTERED or WAITLISTED. *)
Lemma register_success w room p :
  profile (ui w) = Some p → selectedRoomForRsvp (ui w) = Some room →
  notice (ui (handleRegisterForSelectedRoom w).2)
    = "Registered for " +:+ room_id room +:+ ". It now appears in Your Shows."
  ∨ notice (ui (handleRegisterForSelectedRoom w).2)
    = "Added to waitlist for " +:+ room_id room +:+ "." →
  ∃ st cfg' now s e,
    (st = RSVP_REGISTERED
     ∧ notice (ui (handleRegisterForSelectedRoom w).2)
       = "Registered for " +:+ room_id room +:+ ". It now appears in Your Shows."
     ∨ st = RSVP_WAITLISTED
       ∧ notice (ui (handleRegisterForSelectedRoom w).2)
         = "Added to waitlist for " +:+ room_id room +:+ ".")
    ∧ registerTx (db w !! p_rsvp_config (room_id room)) "" = (Some cfg', st)
    ∧ db (handleRegisterForSelectedRoom w).2
      = <[p_room_rsvp (room_id room) (rsvpOwnerId (Some p)) :=
            roomRsvpPayload st now p (rsvpOwnerId (Some p))]>
          (<[p_user_rsvp (rsvpOwnerId (Some p)) (room_id room) :=
               userRsvpPayload st (room_id room) s e now]>
             (<[p_rsvp_config (room_id room) := cfg']> (db w))).
Proof.
  intros Hp Hsel.
  unfold handleRegisterForSelectedRoom. unfold_monad. rewrite Hsel, Hp.
  run_handler; intros [Hn|Hn]; try discriminate Hn;
    match goal with
    | Htx : registerTx _ _ = (Some _, ?st) |- _ =>
        pose proof (registerTx_assigns _ _ _ _ Htx) as [->| ->]
    end; try discriminate;
    eexists _, _, _, _, _; (split; [|split; [eassumption|reflexivity]]); auto.
Qed.

(** C4. Register is idempotent per (room, user).  A call that finds a
    record with an active status for the pair reports that status, runs
    no transaction and leaves the store as it is.  Hence when a first
    call ends REGISTERED or WAITLISTED, a second call by the same caller
    for the same room, on the store the first one left, changes nothing
    in the store (so neither counter moves) and reports the status the
    first call assigned. *)
Theorem C4_register_idempotent :
  (∀ w room p,
      profile (ui w) = Some p → selectedRoomForRsvp (ui w) = Some room →
      isActiveRsvpStatus
        (db w !! p_room_rsvp (room_id room) (rsvpOwnerId (Some p))
         ≫= (.!! "status")) = true →
      db (handleRegisterForSelectedRoom w).2 = db w
      ∧ tx_cache (handleRegisterForSelectedRoom w).2 = tx_cache w
      ∧ (rsvpOwnerId (Some p) ≠ "" →
         getRoomState room (clock w 0%nat) = upcoming → faults w 0%nat = false →
         notice (ui (handleRegisterForSelectedRoom w).2)
         = "Already "
           +:+ from_option js_String "undefined"
                 (db w !! p_room_rsvp (room_id room) (rsvpOwnerId (Some p))
                  ≫= (.!! "status"))
           +:+ " for " +:+ room_id room +:+ "."
         ∧ error (ui (handleRegisterForSelectedRoom w).2) = ""))
  ∧ (∀ w1 w2 room room2 p,
      profile (ui w1) = Some p → selectedRoomForRsvp (ui w1) = Some room →
      notice (ui (handleRegisterForSelectedRoom w1).2)
        = "Registered for " +:+ room_id room +:+ ". It now appears in Your Shows."
      ∨ notice (ui (handleRegisterForSelectedRoom w1).2)
        = "Added to waitlist for " +:+ room_id room +:+ "." →
      profile (ui w2) = Some p → selectedRoomForRsvp (ui w2) = Some room2 →
      room_id room2 = room_id room →
      db w2 = db (handleRegisterForSelectedRoom w1).2 →
      ∃ st,
        (st = "registered"
         ∧ notice (ui (handleRegisterForSelectedRoom w1).2)
           = "Registered for " +:+ room_id room +:+ ". It now appears in Your Shows."
         ∨ st = "waitlisted"
           ∧ notice (ui (handleRegisterForSelectedRoom w1).2)
             = "Added to waitlist for " +:+ room_id room +:+ ".")
        ∧ db (handleRegisterForSelectedRoom w2).2 = db w2
        ∧ bookedCount_of (db (handleRegisterForSelectedRoom w2).2
                          !! p_rsvp_config (room_id room))
          = bookedCount_of (db w2 !! p_rsvp_config (room_id room))
        ∧ waitlistCount_of (db (handleRegisterForSelectedRoom w2).2
                            !! p_rsvp_config (room_id room))
          = waitlistCount_of (db w2 !! p_rsvp_config (room_id room))
        ∧ (rsvpOwnerId (Some p) ≠ "" →
           getRoomState room2 (clock w2 0%nat) = upcoming →
           faults w2 0%nat = false →
           notice (ui (handleRegisterForSelectedRoom w2).2)
           = "Already " +:+ st +:+ " for " +:+ room_id room +:+ "."
           ∧ error (ui (handleRegisterForSelectedRoom w2).2) = "")).
Proof.
  split; [exact register_short_circuit|].
  intros w1 w2 room room2 p Hp1 Hsel1 Hfirst Hp2 Hsel2 Hid Hdb.
  destruct (register_success w1 room p Hp1 Hsel1 Hfirst)
    as (st & cfg' & now & s & e & Hst & Htx & Hdb1).
  assert (Hrec : db w2 !! p_room_rsvp (room_id room2) (rsvpOwnerId (Some p))
                 ≫= (.!! "status") = Some (JStr st)).
  { rewrite Hdb, Hdb1, Hid, lookup_insert_eq. simpl. apply roomRsvpPayload_status. }
  assert (Hactive : isActiveRsvpStatus (Some (JStr st)) = true)
    by (apply isActiveRsvpStatus_assigned; tauto).
  destruct (register_short_circuit w2 room2 p Hp2 Hsel2) as (Hsame & _ & Hnotice);
    [rewrite Hrec; exact Hactive|].
  exists st. split; [exact Hst|]. split; [exact Hsame|].
  rewrite Hsame. split; [reflexivity|]. split; [reflexivity|].
  intros Ho Hup Hf. destruct (Hnotice Ho Hup Hf) as [Hn He].
  rewrite Hn, Hrec, Hid. split; [reflexivity|exact He].
Qed.

(** The store after a register call, on every path of the handler:
    untouched; or the ledger committed and the dual write failed; or the
    ledger committed and both records were written in one step. *)
Lemma register_db_cases w :
  db (handleRegisterForSelectedRoom w).2 = db w
  ∨ ∃ room p cfg' st,
      selectedRoomForRsvp (ui w) = Some room ∧ profile (ui w) = Some p
      ∧ registerTx (db w !! p_rsvp_config (room_id room)) "" = (Some cfg', st)
      ∧ (db (handleRegisterForSelectedRoom w).2
         = <[p_rsvp_config (room_id room) := cfg']> (db w)
         ∨ ∃ now s e,
             db (handleRegisterForSelectedRoom w).2
             = <[p_room_rsvp (room_id room) (rsvpOwnerId (Some p)) :=
                   roomRsvpPayload st now p (rsvpOwnerId (Some p))]>
                 (<[p_user_rsvp (rsvpOwnerId (Some p)) (room_id room) :=
                      userRsvpPayload st (room_id room) s e now]>
                    (<[p_rsvp_config (room_id room) := cfg']> (db w)))).
Proof.
  unfold handleRegisterForSelectedRoom. unfold_monad.
  destruct (profile (ui w)) as [p|]; [|left; reflexivity].
  destruct (selectedRoomForRsvp (ui w)) as [room|]; [|left; reflexivity].
  run_handler; try (left; reflexivity);
    right; exists room, p; eexists _, _;
    (split; [reflexivity|split; [reflexivity|split; [eassumption|]]]);
    [left; reflexivity|left; reflexivity|right; eauto|right; eauto].
Qed.

Ltac path_ne :=
  unfold p_audience_data, p_room, p_event_config, p_audience_index,
    p_unregistered, p_rsvp_config, p_room_rsvp, p_user, p_user_rsvp;
  let E := fresh in intros E; discriminate E.

Ltac db_lookups :=
  repeat first [rewrite lookup_insert_eq | rewrite lookup_insert_ne by path_ne].

Lemma no_closed_snapshot (snapshots : list (option obj)) :
  Forall (λ v, ¬ is_closed v) snapshots → Exists is_closed snapshots → False.
Proof.
  rewrite Forall_forall, Exists_exists. intros Hall (v & Hin & Hv).
  exact (Hall v Hin Hv).
Qed.

(** A register call that reaches the transaction with the room open:
    the transaction commits on the value the store holds, and the store
    after the call is that ledger with both records written by the one
    multi-path update, or, when that update fails, that ledger alone. *)
Lemma register_commit_then_write w room p :
  profile (ui w) = Some p → selectedRoomForRsvp (ui w) = Some room →
  rsvpOwnerId (Some p) ≠ "" →
  getRoomState room (clock w 0%nat) = upcoming →
  faults w 0%nat = false → faults w 1%nat = false →
  isActiveRsvpStatus
    (db w !! p_room_rsvp (room_id room) (rsvpOwnerId (Some p))
     ≫= (.!! "status")) = false →
  ¬ is_closed (db w !! p_rsvp_config (room_id room)) →
  Forall (λ v, ¬ is_closed v) (tx_cache w 0%nat) →
  ∃ cfg' st,
    registerTx (db w !! p_rsvp_config (room_id room)) "" = (Some cfg', st)
    ∧ (st = "registered" ∨ st = "waitlisted")
    ∧ db (handleRegisterForSelectedRoom w).2
      = if faults w 2%nat
        then <[p_rsvp_config (room_id room) := cfg']> (db w)
        else <[p_room_rsvp (room_id room) (rsvpOwnerId (Some p)) :=
                 roomRsvpPayload st (clock w 1%nat) p (rsvpOwnerId (Some p))]>
               (<[p_user_rsvp (rsvpOwnerId (Some p)) (room_id room) :=
                    userRsvpPayload st (room_id room) (getRoomWindow room).1
                      (getRoomWindow room).2 (clock w 1%nat)]>
                  (<[p_rsvp_config (room_id room) := cfg']> (db w))).
Proof.
  intros Hp Hsel Howner Hstate Hf0 Hf1 Hinactive Hopen Hcache.
  unfold handleRegisterForSelectedRoom. unfold_monad. rewrite Hsel, Hp.
  apply String.eqb_neq in Howner. rewrite Howner. unfold_monad.
  rewrite Hstate, bool_decide_eq_true_2 by reflexivity. unfold_monad.
  rewrite Hf0. unfold_monad.
  change (option_bind obj jsval (lookup "status") ?x) with (x ≫= (.!! "status")).
  rewrite Hinactive.
  destruct (faults w 2%nat) eqn:Hf2;
    (run_handler; try congruence;
     try (exfalso; eapply no_closed_snapshot; eassumption);
     try contradiction;
     match goal with
     | Htx : registerTx _ _ = (Some _, ?st) |- _ =>
         pose proof (registerTx_assigns _ _ _ _ Htx) as Hst
     end;
     try (destruct Hst; subst; discriminate);
     eexists _, _; (split; [eassumption|]); (split; [exact Hst|]); reflexivity).
Qed.

(** C5. On every path of a register call, and for every (room, user)
    pair, the room-side record and the user-side record are both left as
    they were, or both written, in one store step, with payloads that
    carry the same status, REGISTERED or WAITLISTED, which is the status
    the committed transaction on the room's ledger assigned; so views
    that agree on the status of every pair before the call agree after
    it.  And a call that reaches the transaction with the room open
    commits it, and then writes both records of the caller with the
    status the transaction assigned, by the one multi-path update of
    the store after the commit; when that update fails neither record
    is written. *)
Theorem C5_dual_view_written_together (w : World) :
  (∀ roomId ownerId,
      (db (handleRegisterForSelectedRoom w).2 !! p_room_rsvp roomId ownerId
       = db w !! p_room_rsvp roomId ownerId
       ∧ db (handleRegisterForSelectedRoom w).2 !! p_user_rsvp ownerId roomId
         = db w !! p_user_rsvp ownerId roomId)
      ∨ ∃ st now p s e cfg',
          (st = "registered" ∨ st = "waitlisted")
          ∧ db (handleRegisterForSelectedRoom w).2 !! p_room_rsvp roomId ownerId
            = Some (roomRsvpPayload st now p ownerId)
          ∧ db (handleRegisterForSelectedRoom w).2 !! p_user_rsvp ownerId roomId
            = Some (userRsvpPayload st roomId s e now)
          ∧ roomRsvpPayload st now p ownerId !! "status" = Some (JStr st)
          ∧ userRsvpPayload st roomId s e now !! "status" = Some (JStr st)
          ∧ registerTx (db w !! p_rsvp_config roomId) "" = (Some cfg', st)
          ∧ db (handleRegisterForSelectedRoom w).2 !! p_rsvp_config roomId
            = Some cfg')
  ∧ (views_agree (db w) → views_agree (db (handleRegisterForSelectedRoom w).2))
  ∧ (∀ room p,
      profile (ui w) = Some p → selectedRoomForRsvp (ui w) = Some room →
      rsvpOwnerId (Some p) ≠ "" →
      getRoomState room (clock w 0%nat) = upcoming →
      faults w 0%nat = false → faults w 1%nat = false →
      isActiveRsvpStatus
        (db w !! p_room_rsvp (room_id room) (rsvpOwnerId (Some p))
         ≫= (.!! "status")) = false →
      ¬ is_closed (db w !! p_rsvp_config (room_id room)) →
      Forall (λ v, ¬ is_closed v) (tx_cache w 0%nat) →
      ∃ cfg' st,
        registerTx (db w !! p_rsvp_config (room_id room)) "" = (Some cfg', st)
        ∧ (st = "registered" ∨ st = "waitlisted")
        ∧ db (handleRegisterForSelectedRoom w).2 !! p_rsvp_config (room_id room)
          = Some cfg'
        ∧ (faults w 2%nat = false →
           db (handleRegisterForSelectedRoom w).2
           = <[p_room_rsvp (room_id room) (rsvpOwnerId (Some p)) :=
                 roomRsvpPayload st (clock w 1%nat) p (rsvpOwnerId (Some p))]>
               (<[p_user_rsvp (rsvpOwnerId (Some p)) (room_id room) :=
                    userRsvpPayload st (room_id room) (getRoomWindow room).1
                      (getRoomWindow room).2 (clock w 1%nat)]>
                  (<[p_rsvp_config (room_id room) := cfg']> (db w)))
           ∧ db (handleRegisterForSelectedRoom w).2
               !! p_room_rsvp (room_id room) (rsvpOwnerId (Some p))
             ≫= (.!! "status") = Some (JStr st)
           ∧ db (handleRegisterForSelectedRoom w).2
               !! p_user_rsvp (rsvpOwnerId (Some p)) (room_id room)
             ≫= (.!! "status") = Some (JStr st))
        ∧ (faults w 2%nat = true →
           db (handleRegisterForSelectedRoom w).2
               !! p_room_rsvp (room_id room) (rsvpOwnerId (Some p))
           = db w !! p_room_rsvp (room_id room) (rsvpOwnerId (Some p))
           ∧ db (handleRegisterForSelectedRoom w).2
               !! p_user_rsvp (rsvpOwnerId (Some p)) (room_id room)
             = db w !! p_user_rsvp (rsvpOwnerId (Some p)) (room_id room))).
Proof.
  assert (Hpair : ∀ roomId ownerId,
      (db (handleRegisterForSelectedRoom w).2 !! p_room_rsvp roomId ownerId
       = db w !! p_room_rsvp roomId ownerId
       ∧ db (handleRegisterForSelectedRoom w).2 !! p_user_rsvp ownerId roomId
         = db w !! p_user_rsvp ownerId roomId)
      ∨ ∃ st now p s e cfg',
          (st = "registered" ∨ st = "waitlisted")
          ∧ db (handleRegisterForSelectedRoom w).2 !! p_room_rsvp roomId ownerId
            = Some (roomRsvpPayload st now p ownerId)
          ∧ db (handleRegisterForSelectedRoom w).2 !! p_user_rsvp ownerId roomId
            = Some (userRsvpPayload st roomId s e now)
          ∧ roomRsvpPayload st now p ownerId !! "status" = Some (JStr st)
          ∧ userRsvpPayload st roomId s e now !! "status" = Some (JStr st)
          ∧ registerTx (db w !! p_rsvp_config roomId) "" = (Some cfg', st)
          ∧ db (handleRegisterForSelectedRoom w).2 !! p_rsvp_config roomId
            = Some cfg').
  { intros roomId ownerId.
    destruct (register_db_cases w)
      as [->|(room & p & cfg' & st & _ & _ & Htx & [->|(now & s & e & ->)])].
    - left. split; reflexivity.
    - left. rewrite !lookup_insert_ne by path_ne. split; reflexivity.
    - destruct (decide (roomId = room_id room ∧ ownerId = rsvpOwnerId (Some p)))
        as [[-> ->]|Hne].
      + right. exists st, now, p, s, e, cfg'.
        split; [exact (registerTx_assigns _ _ _ _ Htx)|].
        split; [apply lookup_insert_eq|].
        split; [rewrite lookup_insert_ne by path_ne; apply lookup_insert_eq|].
        split; [apply roomRsvpPayload_status|].
        split; [apply userRsvpPayload_status|].
        split; [exact Htx|].
        rewrite !lookup_insert_ne by path_ne. apply lookup_insert_eq.
      + left.
        assert (p_room_rsvp (room_id room) (rsvpOwnerId (Some p))
                ≠ p_room_rsvp roomId ownerId)
          by (unfold p_room_rsvp; intros [= E1 E2]; apply Hne; auto).
        assert (p_user_rsvp (rsvpOwnerId (Some p)) (room_id room)
                ≠ p_user_rsvp ownerId roomId)
          by (unfold p_user_rsvp; intros [= E1 E2]; apply Hne; auto).
        rewrite !lookup_insert_ne by (assumption || path_ne).
        split; reflexivity. }
  split; [exact Hpair|]. split.
  - intros Hagree roomId ownerId.
    destruct (Hpair roomId ownerId)
      as [[-> ->]|(st & now & p & s & e & cfg' & _ & -> & -> & Hr & Hu & _)].
    + apply Hagree.
    + simpl. rewrite Hr, Hu. reflexivity.
  - intros room p Hp Hsel Howner Hstate Hf0 Hf1 Hinactive Hopen Hcache.
    destruct (register_commit_then_write w room p Hp Hsel Howner Hstate Hf0 Hf1
                Hinactive Hopen Hcache) as (cfg' & st & Htx & Hst & Hdb).
    exists cfg', st. split; [exact Htx|]. split; [exact Hst|].
    rewrite Hdb. split.
    { destruct (faults w 2%nat); db_lookups; reflexivity. }
    split; intros Hf2; rewrite Hf2.
    + split; [reflexivity|]. db_lookups. simpl.
      rewrite roomRsvpPayload_status, userRsvpPayload_status. split; reflexivity.
    + db_lookups. split; reflexivity.
Qed.

(** C10. The status comparison of the short-circuit lowers the case and
    accepts REGISTERED and WAITLISTED only, so CANCELLED is not active.
    A register call that finds a record whose status is not active is
    not short-circuited: with the room UPCOMING and open and the store
    answering, the transaction runs and commits, one of the two counters
    goes up by one again, and the room-side and user-side records are
    overwritten with the newly assigned status. *)
Theorem C10_inactive_record_registers_again :
  isActiveRsvpStatus (Some (JStr "cancelled")) = false
  ∧ (∀ s, isActiveRsvpStatus (Some (JStr s)) = true
          ↔ toLowerCase s = "registered" ∨ toLowerCase s = "waitlisted")
  ∧ (∀ w room p record,
      profile (ui w) = Some p → selectedRoomForRsvp (ui w) = Some room →
      rsvpOwnerId (Some p) ≠ "" →
      getRoomState room (clock w 0%nat) = upcoming →
      faults w 0%nat = false → faults w 1%nat = false → faults w 2%nat = false →
      db w !! p_room_rsvp (room_id room) (rsvpOwnerId (Some p)) = Some record →
      isActiveRsvpStatus (record !! "status") = false →
      ¬ is_closed (db w !! p_rsvp_config (room_id room)) →
      Forall (λ v, ¬ is_closed v) (tx_cache w 0%nat) →
      ∃ cfg' st,
        registerTx (db w !! p_rsvp_config (room_id room)) "" = (Some cfg', st)
        ∧ tx_cache (handleRegisterForSelectedRoom w).2 = next (tx_cache w)
        ∧ db (handleRegisterForSelectedRoom w).2 !! p_rsvp_config (room_id room)
          = Some cfg'
        ∧ (st = "registered"
           ∧ bookedCount_of (Some cfg')
             = bookedCount_of (db w !! p_rsvp_config (room_id room)) + 1
           ∧ waitlistCount_of (Some cfg')
             = waitlistCount_of (db w !! p_rsvp_config (room_id room))
           ∨ st = "waitlisted"
             ∧ bookedCount_of (Some cfg')
               = bookedCount_of (db w !! p_rsvp_config (room_id room))
             ∧ waitlistCount_of (Some cfg')
               = waitlistCount_of (db w !! p_rsvp_config (room_id room)) + 1)
        ∧ db (handleRegisterForSelectedRoom w).2
            !! p_room_rsvp (room_id room) (rsvpOwnerId (Some p))
          ≫= (.!! "status") = Some (JStr st)
        ∧ db (handleRegisterForSelectedRoom w).2
            !! p_user_rsvp (rsvpOwnerId (Some p)) (room_id room)
          ≫= (.!! "status") = Some (JStr st)).
Proof.
  split; [reflexivity|]. split; [exact isActiveRsvpStatus_string|].
  intros w room p record Hp Hsel Howner Hstate Hf0 Hf1 Hf2 Hrec Hinactive Hopen Hcache.
  unfold handleRegisterForSelectedRoom. unfold_monad. rewrite Hsel, Hp.
  apply String.eqb_neq in Howner. rewrite Howner. unfold_monad.
  rewrite Hstate, bool_decide_eq_true_2 by reflexivity. unfold_monad.
  rewrite Hf0. unfold_monad. rewrite Hrec. unfold_monad. rewrite Hinactive.
  run_handler; unfold next in *; try congruence;
    try (exfalso; eapply no_closed_snapshot; eassumption);
    try contradiction;
    match goal with
    | Htx : registerTx _ _ = (Some _, ?st) |- _ =>
        pose proof (registerTx_assigns _ _ _ _ Htx) as Hst;
        pose proof (registerTx_counters _ _ _ _ Htx) as (_ & Hcount)
    end;
    try (destruct Hst; subst; discriminate);
    eexists _, _; (split; [eassumption|]); (split; [reflexivity|]);
    (split; [rewrite !lookup_insert_ne by path_ne; apply lookup_insert_eq|]);
    (split; [destruct Hcount as [(_ & -> & -> & ->)|(_ & -> & -> & ->)]; auto|]);
    (split; [rewrite lookup_insert_eq; apply roomRsvpPayload_status|]);
    rewrite lookup_insert_ne by path_ne; rewrite lookup_insert_eq;
    apply userRsvpPayload_status.
Qed.

(** *** The join handler *)

Lemma join_index_entry w roomId p :
  profile (ui w) = Some p → displayName p ≠ "" →
  db (handleJoinRoom roomId w).2 !! p_audience_index roomId (joinUserId p)
  = index_after_join w roomId p.
Proof.
  intros Hp Hname. unfold handleJoinRoom, index_after_join. unfold_monad. rewrite Hp.
  apply String.eqb_neq in Hname. rewrite Hname. unfold_monad.
  destruct (faults w 0%nat) eqn:F0; unfold_monad; [reflexivity|].
  destruct (faults w 1%nat) eqn:F1; unfold_monad; [db_lookups; reflexivity|].
  rewrite lookup_insert_ne by path_ne.
  destruct (db w !! p_audience_index roomId (joinUserId p)) as [old|] eqn:Eold;
    unfold_monad.
  - destruct (old !! "firstSeen") as [fs|] eqn:Efs; unfold_monad.
    + destruct (faults w 2%nat) eqn:F2; unfold_monad.
      * db_lookups. exact Eold.
      * rewrite lookup_insert_ne by path_ne. rewrite Eold. simpl.
        run_handler; db_lookups; reflexivity.
    + db_lookups. exact Eold.
  - destruct (faults w 2%nat) eqn:F2; unfold_monad.
    + db_lookups. exact Eold.
    + rewrite lookup_insert_ne by path_ne. rewrite Eold. simpl.
      run_handler; db_lookups; reflexivity.
Qed.

Lemma audienceIndexValues_lookup uid name p r fs ls key (old : obj) :
  (audienceIndexValues uid name p r fs ls key ∪ old) !! "firstSeen" = Some fs
  ∧ (audienceIndexValues uid name p r fs ls key ∪ old) !! "lastSeen"
    = Some (JNum ls)
  ∧ (audienceIndexValues uid name p r fs ls key ∪ old) !! "lastSessionKey"
    = Some (JStr key).
Proof.
  unfold audienceIndexValues.
  repeat split; apply lookup_union_Some_l;
    rewrite !lookup_insert_ne by discriminate;
    first [apply lookup_insert_eq | apply lookup_singleton_eq].
Qed.

(** C9. A join whose three store round trips succeed writes the index
    entry of the caller: over an entry that holds a [firstSeen], the
    written entry keeps that [firstSeen] and takes the call's time and
    session key as [lastSeen] and [lastSessionKey]; with no entry,
    [firstSeen] is the time read by the call.  On every path of a join,
    failures included, an entry that holds a [firstSeen] keeps it.
    Hence after two joins of the same user the entry holds the
    [firstSeen] of the first call and the [lastSeen] of the second. *)
Theorem C9_first_seen_kept_across_joins :
  (∀ w roomId p,
      profile (ui w) = Some p → displayName p ≠ "" →
      faults w 0%nat = false → faults w 1%nat = false → faults w 2%nat = false →
      (∀ old fs,
          db w !! p_audience_index roomId (joinUserId p) = Some old →
          old !! "firstSeen" = Some fs →
          ∃ entry,
            db (handleJoinRoom roomId w).2 !! p_audience_index roomId (joinUserId p)
            = Some entry
            ∧ entry !! "firstSeen" = Some fs
            ∧ entry !! "lastSeen" = Some (JNum (clock w 1%nat))
            ∧ entry !! "lastSessionKey" = Some (JStr (push_keys w 0%nat)))
      ∧ (db w !! p_audience_index roomId (joinUserId p) = None →
         ∃ entry,
           db (handleJoinRoom roomId w).2 !! p_audience_index roomId (joinUserId p)
           = Some entry
           ∧ entry !! "firstSeen" = Some (JNum (clock w 1%nat))
           ∧ entry !! "lastSeen" = Some (JNum (clock w 2%nat))
           ∧ entry !! "lastSessionKey" = Some (JStr (push_keys w 0%nat))))
  ∧ (∀ w roomId p old fs,
      profile (ui w) = Some p → displayName p ≠ "" →
      db w !! p_audience_index roomId (joinUserId p) = Some old →
      old !! "firstSeen" = Some fs →
      ∃ entry,
        db (handleJoinRoom roomId w).2 !! p_audience_index roomId (joinUserId p)
        = Some entry
        ∧ entry !! "firstSeen" = Some fs)
  ∧ (∀ w1 w2 roomId p,
      profile (ui w1) = Some p → profile (ui w2) = Some p → displayName p ≠ "" →
      faults w1 0%nat = false → faults w1 1%nat = false → faults w1 2%nat = false →
      faults w2 0%nat = false → faults w2 1%nat = false → faults w2 2%nat = false →
      db w1 !! p_audience_index roomId (joinUserId p) = None →
      db w2 !! p_audience_index roomId (joinUserId p)
      = db (handleJoinRoom roomId w1).2 !! p_audience_index roomId (joinUserId p) →
      ∃ entry,
        db (handleJoinRoom roomId w2).2 !! p_audience_index roomId (joinUserId p)
        = Some entry
        ∧ entry !! "firstSeen" = Some (JNum (clock w1 1%nat))
        ∧ entry !! "lastSeen" = Some (JNum (clock w2 1%nat))
        ∧ entry !! "lastSessionKey" = Some (JStr (push_keys w2 0%nat))).
Proof.
  assert (Hover : ∀ w roomId p,
      profile (ui w) = Some p → displayName p ≠ "" →
      faults w 0%nat = false → faults w 1%nat = false → faults w 2%nat = false →
      ∀ old fs,
        db w !! p_audience_index roomId (joinUserId p) = Some old →
        old !! "firstSeen" = Some fs →
        ∃ entry,
          db (handleJoinRoom roomId w).2 !! p_audience_index roomId (joinUserId p)
          = Some entry
          ∧ entry !! "firstSeen" = Some fs
          ∧ entry !! "lastSeen" = Some (JNum (clock w 1%nat))
          ∧ entry !! "lastSessionKey" = Some (JStr (push_keys w 0%nat))).
  { intros w roomId p Hp Hname F0 F1 F2 old fs Hold Hfs.
    rewrite join_index_entry by assumption. unfold index_after_join.
    rewrite F0, F1, F2, Hold, Hfs. simpl.
    eexists. split; [reflexivity|]. apply audienceIndexValues_lookup. }
  assert (Hfresh : ∀ w roomId p,
      profile (ui w) = Some p → displayName p ≠ "" →
      faults w 0%nat = false → faults w 1%nat = false → faults w 2%nat = false →
      db w !! p_audience_index roomId (joinUserId p) = None →
      ∃ entry,
        db (handleJoinRoom roomId w).2 !! p_audience_index roomId (joinUserId p)
        = Some entry
        ∧ entry !! "firstSeen" = Some (JNum (clock w 1%nat))
        ∧ entry !! "lastSeen" = Some (JNum (clock w 2%nat))
        ∧ entry !! "lastSessionKey" = Some (JStr (push_keys w 0%nat))).
  { intros w roomId p Hp Hname F0 F1 F2 Hnone.
    rewrite join_index_entry by assumption. unfold index_after_join.
    rewrite F0, F1, F2, Hnone. simpl.
    eexists. split; [reflexivity|]. apply audienceIndexValues_lookup. }
  split; [|split].
  - intros w roomId p Hp Hname F0 F1 F2. split; [apply Hover|apply Hfresh]; assumption.
  - intros w roomId p old fs Hp Hname Hold Hfs.
    rewrite join_index_entry by assumption. unfold index_after_join.
    rewrite Hold, Hfs.
    destruct (faults w 0%nat || faults w 1%nat); [eauto|].
    destruct (faults w 2%nat); [eauto|].
    eexists. split; [reflexivity|]. apply audienceIndexValues_lookup.
  - intros w1 w2 roomId p Hp1 Hp2 Hname F0 F1 F2 G0 G1 G2 Hnone Hsame.
    destruct (Hfresh w1 roomId p Hp1 Hname F0 F1 F2 Hnone)
      as (e1 & He1 & Hfs1 & _).
    rewrite He1 in Hsame.
    exact (Hover w2 roomId p Hp2 Hname G0 G1 G2 e1 _ Hsame Hfs1).
Qed.

(** *** The locked-room gate *)

(** The join handler catches what its writes throw. *)
Lemma handleJoinRoom_ok roomId w : (handleJoinRoom roomId w).1 = Ok tt.
Proof.
  unfold handleJoinRoom. unfold_monad.
  destruct (profile (ui w)) as [p|]; [|reflexivity].
  destruct (String.eqb (displayName p) ""); unfold_monad; [reflexivity|].
  run_handler; reflexivity.
Qed.

(** X1. The gate, on the paths where the recheck answers: when the
    room read back from the store still resolves UPCOMING, it reports
    the lock, leaves the store alone and does not navigate; otherwise it
    clears the locked room and runs the join handler. *)
Lemma gate_recheck w selected :
  selectedLockedRoom (ui w) = Some selected → faults w 0%nat = false →
  let latestRoom :=
    {| room_id := room_id selected;
       room_isLive := truthy (db w !! p_room (room_id selected) ≫= (.!! "isLive"));
       room_audienceIndex := ∅;
       room_eventConfig :=
         default (room_eventConfig selected)
           (db w !! p_event_config (room_id selected));
       room_rsvpConfig := ∅ |} in
  let rechecked :=
    {| db := db w; ui := setUi_selectedLockedRoom None (ui w);
       clock := next (clock w); faults := next (faults w);
       push_keys := push_keys w; tx_cache := tx_cache w |} in
  (getRoomState latestRoom (clock w 0%nat) = upcoming →
   db (handleLockedTimerFinished w).2 = db w
   ∧ error (ui (handleLockedTimerFinished w).2)
     = "Room is still locked. Please wait a little more."
   ∧ location (ui (handleLockedTimerFinished w).2) = location (ui w))
  ∧ (getRoomState latestRoom (clock w 0%nat) ≠ upcoming →
     (handleLockedTimerFinished w).2 = (handleJoinRoom (room_id selected) rechecked).2).
Proof.
  intros Hsel Hf. cbv zeta.
  unfold handleLockedTimerFinished. unfold_monad. rewrite Hsel, Hf. unfold_monad.
  change (option_bind obj jsval (lookup "isLive") ?x) with (x ≫= (.!! "isLive")).
  split; intros Hstate.
  - rewrite Hstate, bool_decide_eq_true_2 by reflexivity. unfold_monad.
    repeat split; reflexivity.
  - rewrite bool_decide_eq_false_2 by assumption. unfold_monad.
    match goal with
    | |- context [handleJoinRoom ?r ?w0] =>
        pose proof (handleJoinRoom_ok r w0) as Hok;
        destruct (handleJoinRoom r w0) as [res w1]
    end.
    simpl in Hok. subst res. reflexivity.
Qed.

(** C8, at the failing input.  The store schedules the locked room
    from 1000 to 2000 and the countdown callback runs when the clock
    reads 2500: the recheck resolves ENDED, not CURRENT, and the gate
    still calls the join handler, which writes the join record and the
    index entry and navigates into the room, with no error. *)
Theorem C8_gate_admits_ended_room :
  getRoomState
    {| room_id := "r1";
       room_isLive := truthy (scheduled_db !! p_room "r1" ≫= (.!! "isLive"));
       room_audienceIndex := ∅;
       room_eventConfig :=
         default (room_eventConfig (scheduled_room "r1" ∅))
           (scheduled_db !! p_event_config "r1");
       room_rsvpConfig := ∅ |} 2500 = ended
  ∧ error (ui (handleLockedTimerFinished
                 (sample_world scheduled_db (Some (scheduled_room "r1" ∅)) 2500)).2)
    = ""
  ∧ location (ui (handleLockedTimerFinished
                    (sample_world scheduled_db (Some (scheduled_room "r1" ∅)) 2500)).2)
    = Some "/room/r1?dbKey=k1&uid=u1&role=audience"
  ∧ (db (handleLockedTimerFinished
           (sample_world scheduled_db (Some (scheduled_room "r1" ∅)) 2500)).2
     !! p_audience_index "r1" "u1") ≫= (.!! "firstSeen")
    = Some (JNum 2502)
  ∧ (db (handleLockedTimerFinished
           (sample_world scheduled_db (Some (scheduled_room "r1" ∅)) 2500)).2
     !! p_audience_data "r1" "k1") ≫= (.!! "userId")
    = Some (JStr "u1").
Proof. vm_compute. repeat split; reflexivity. Qed.

(** *** The catalog buckets *)

Lemma joinedRoom_true profile userRsvps room :
  joinedRoom profile userRsvps room = true
  ↔ is_Some (room_audienceIndex room !! profileUserId profile)
    ∨ isActiveRsvpStatus (userRsvps !! room_id room ≫= (.!! "status")) = true.
Proof.
  unfold joinedRoom. cbv zeta. rewrite orb_true_iff, bool_decide_eq_true.
  reflexivity.
Qed.

Lemma js_sort_elem cmp l r : r ∈ js_sort cmp l ↔ r ∈ l.
Proof. unfold js_sort. rewrite merge_sort_Permutation. reflexivity. Qed.

Lemma yourShows_elem profile rooms userRsvps now r :
  r ∈ yourShows profile rooms userRsvps now
  ↔ r ∈ rooms ∧ has_identity profile ∧ joinedRoom profile userRsvps r = true.
Proof.
  unfold yourShows, has_identity.
  destruct (String.eqb_spec (profileUserId profile) "") as [E1|E1];
    destruct (String.eqb_spec (rsvpOwnerId profile) "") as [E2|E2]; simpl;
    rewrite ?js_sort_elem, ?list_elem_of_filter;
    [rewrite elem_of_nil|..]; tauto.
Qed.

Lemma yourSet_elem (l : list Room) i :
  i ∈ yourSet l ↔ ∃ r, r ∈ l ∧ room_id r = i.
Proof.
  unfold yourSet. rewrite elem_of_list_to_set, list_elem_of_fmap.
  split; intros (r & ? & ?); exists r; auto.
Qed.

(** C7, as the code has it.  The three buckets are pairwise disjoint:
    no id of "yours" is the id of a room of "upcoming" or "current", and
    no room is in both of these.  "Yours" holds the rooms for which a
    caller with an identity has an active registration or an entry in
    the room's audience index, whatever their state, ENDED included;
    "upcoming" the UPCOMING rooms and "current" the CURRENT rooms whose
    id is not in "yours"; so an ENDED room is in neither of these two,
    and a room with an active registration is in "yours" only. *)
Theorem C7_buckets_partition (profile : option Profile) (rooms : list Room)
    (userRsvps : gmap string obj) (now : Z) :
  (∀ r, r ∈ bucket_yours (getBuckets profile rooms userRsvps now)
        ↔ r ∈ rooms ∧ has_identity profile
          ∧ (is_Some (room_audienceIndex r !! profileUserId profile)
             ∨ isActiveRsvpStatus (userRsvps !! room_id r ≫= (.!! "status")) = true))
  ∧ (∀ r, r ∈ bucket_upcoming (getBuckets profile rooms userRsvps now)
          ↔ r ∈ rooms ∧ getRoomState r now = upcoming
            ∧ (∀ r', r' ∈ bucket_yours (getBuckets profile rooms userRsvps now)
                     → room_id r' ≠ room_id r))
  ∧ (∀ r, r ∈ bucket_current (getBuckets profile rooms userRsvps now)
          ↔ r ∈ rooms ∧ getRoomState r now = current
            ∧ (∀ r', r' ∈ bucket_yours (getBuckets profile rooms userRsvps now)
                     → room_id r' ≠ room_id r))
  ∧ (∀ r r', r ∈ bucket_yours (getBuckets profile rooms userRsvps now)
             → r' ∈ bucket_upcoming (getBuckets profile rooms userRsvps now)
               ∨ r' ∈ bucket_current (getBuckets profile rooms userRsvps now)
             → room_id r ≠ room_id r')
  ∧ (∀ r, ¬ (r ∈ bucket_upcoming (getBuckets profile rooms userRsvps now)
             ∧ r ∈ bucket_current (getBuckets profile rooms userRsvps now)))
  ∧ (∀ r, getRoomState r now = ended
          → (r ∉ bucket_upcoming (getBuckets profile rooms userRsvps now))
            ∧ (r ∉ bucket_current (getBuckets profile rooms userRsvps now)))
  ∧ (∀ r, r ∈ rooms → has_identity profile
          → isActiveRsvpStatus (userRsvps !! room_id r ≫= (.!! "status")) = true
          → r ∈ bucket_yours (getBuckets profile rooms userRsvps now)
            ∧ (r ∉ bucket_upcoming (getBuckets profile rooms userRsvps now))
            ∧ (r ∉ bucket_current (getBuckets profile rooms userRsvps now))).
Proof.
  unfold getBuckets. cbn [bucket_yours bucket_upcoming bucket_current].
  set (yours := yourShows profile rooms userRsvps now).
  assert (Hy : ∀ r, r ∈ yours
        ↔ r ∈ rooms ∧ has_identity profile
          ∧ (is_Some (room_audienceIndex r !! profileUserId profile)
             ∨ isActiveRsvpStatus (userRsvps !! room_id r ≫= (.!! "status")) = true)).
  { intros r. unfold yours. rewrite yourShows_elem, joinedRoom_true. reflexivity. }
  assert (Hout : ∀ st r, r ∈ filter (λ r, getRoomState r now = st
                                          ∧ room_id r ∉ yourSet yours) rooms
        ↔ r ∈ rooms ∧ getRoomState r now = st
          ∧ (∀ r', r' ∈ yours → room_id r' ≠ room_id r)).
  { intros st r. rewrite list_elem_of_filter, yourSet_elem. split.
    - intros [[Hst Hnot] Hin]. repeat split; try assumption.
      intros r' Hr' Heq. apply Hnot. exists r'. auto.
    - intros (Hin & Hst & Hnot). repeat split; try assumption.
      intros (r' & Hr' & Heq). exact (Hnot r' Hr' Heq). }
  unfold upcomingShows, currentShows.
  split; [exact Hy|]. split; [exact (Hout upcoming)|]. split; [exact (Hout current)|].
  split; [|split; [|split]].
  - intros r r' Hr [Hr'|Hr']; apply Hout in Hr' as (_ & _ & Hnot); exact (Hnot r Hr).
  - intros r [Hu Hc]. apply Hout in Hu as (_ & Hu & _). apply Hout in Hc as (_ & Hc & _).
    congruence.
  - intros r Hended.
    split; intros Hin; apply Hout in Hin as (_ & Hst & _); congruence.
  - intros r Hin Hid Hactive.
    assert (Hr : r ∈ yours) by (apply Hy; auto).
    split; [exact Hr|].
    split; intros Hin'; apply Hout in Hin' as (_ & _ & Hnot); exact (Hnot r Hr eq_refl).
Qed.

(** *** Phone numbers and the session profile *)

Lemma all_digits_digits_only s : all_digits (digits_only s) = true.
Proof.
  induction s as [|a s IH]; simpl; [reflexivity|].
  destruct (is_digit a) eqn:E; simpl; [rewrite E|]; exact IH.
Qed.

Lemma digits_only_all_digits s : all_digits s = true → digits_only s = s.
Proof.
  induction s as [|a s IH]; simpl; [reflexivity|].
  intros [Ha Hs]%andb_true_iff. rewrite Ha, IH by assumption. reflexivity.
Qed.

Lemma digits_only_fixed s : digits_only s = s → all_digits s = true.
Proof. intros <-. apply all_digits_digits_only. Qed.

Lemma all_digits_substring s : ∀ n m,
  all_digits s = true → all_digits (String.substring n m s) = true.
Proof.
  induction s as [|a s IH]; intros n m Hs.
  - destruct n, m; reflexivity.
  - apply andb_true_iff in Hs as [Ha Hs].
    destruct n as [|n].
    + destruct m as [|m]; simpl; [reflexivity|]. rewrite Ha. apply IH, Hs.
    + simpl. apply IH, Hs.
Qed.

Lemma length_substring_le s : ∀ n m,
  (String.length (String.substring n m s) <= m)%nat.
Proof.
  induction s as [|a s IH]; intros n m.
  - destruct n, m; simpl; lia.
  - destruct n as [|n].
    + destruct m as [|m]; simpl; [lia|]. specialize (IH 0%nat m). lia.
    + simpl. apply IH.
Qed.

Lemma substring_all s : ∀ m,
  (String.length s <= m)%nat → String.substring 0 m s = s.
Proof.
  induction s as [|a s IH]; intros m Hm.
  - destruct m; reflexivity.
  - destruct m as [|m]; simpl in *; [lia|]. rewrite IH by lia. reflexivity.
Qed.

Lemma substring_skip s1 : ∀ s2 m,
  String.substring (String.length s1) m (s1 +:+ s2) = String.substring 0 m s2.
Proof. induction s1 as [|a s1 IH]; intros s2 m; simpl; [reflexivity|apply IH]. Qed.

Lemma sanitizePhone_digits s : all_digits (sanitizePhone s) = true.
Proof. unfold sanitizePhone. apply all_digits_substring, all_digits_digits_only. Qed.

Lemma sanitizePhone_length s : (String.length (sanitizePhone s) <= 10)%nat.
Proof. unfold sanitizePhone. apply length_substring_le. Qed.

Lemma sanitizePhone_fixed s :
  all_digits s = true → (String.length s <= 10)%nat → sanitizePhone s = s.
Proof.
  intros Hd Hl. unfold sanitizePhone. rewrite digits_only_all_digits by assumption.
  replace (String.length s - 10)%nat with 0%nat by lia. apply substring_all, Hl.
Qed.

(** X2. A sanitized phone holds decimal digits only, ten at most;
    sanitizing is idempotent, and the strings it leaves as they are are
    exactly the digit strings of length ten at most. *)
Theorem sanitizePhone_normal_form (value : string) :
  all_digits (sanitizePhone value) = true
  ∧ (String.length (sanitizePhone value) <= 10)%nat
  ∧ sanitizePhone (sanitizePhone value) = sanitizePhone value
  ∧ (sanitizePhone value = value
     ↔ all_digits value = true ∧ (String.length value <= 10)%nat).
Proof.
  split; [apply sanitizePhone_digits|]. split; [apply sanitizePhone_length|].
  split.
  - apply sanitizePhone_fixed; [apply sanitizePhone_digits|apply sanitizePhone_length].
  - split.
    + intros <-. split; [apply sanitizePhone_digits|apply sanitizePhone_length].
    + intros [Hd Hl]. apply sanitizePhone_fixed; assumption.
Qed.

Lemma toE164India_cases value :
  toE164India value
  = if String.eqb (sanitizePhone value) "" then "" else "+91" +:+ sanitizePhone value.
Proof. unfold toE164India. destruct (String.eqb _ _); reflexivity. Qed.

(** X3. For a value with ten digits or more, the E.164 form is "+91"
    followed by the sanitized phone, and sanitizing it gives the
    sanitized phone back. *)
Theorem toE164India_round_trip (value : string) :
  String.length (sanitizePhone value) = 10%nat →
  toE164India value = "+91" +:+ sanitizePhone value
  ∧ sanitizePhone (toE164India value) = sanitizePhone value.
Proof.
  intros Hlen. rewrite toE164India_cases.
  destruct (String.eqb_spec (sanitizePhone value) "") as [E|_];
    [rewrite E in Hlen; discriminate|].
  split; [reflexivity|].
  set (d := sanitizePhone value) in *.
  assert (Hd : all_digits d = true) by apply sanitizePhone_digits.
  unfold sanitizePhone.
  change (digits_only ("+91" +:+ d)) with ("91" +:+ digits_only d).
  rewrite (digits_only_all_digits d Hd).
  change (String.length ("91" +:+ d)) with (S (S (String.length d))).
  rewrite Hlen.
  change (String.substring 0 10 d = d). apply substring_all. lia.
Qed.

Lemma ltrim_starts_clean s : starts_clean (ltrim s).
Proof.
  induction s as [|a s IH]; simpl; [exact I|].
  destruct (is_js_space a) eqn:E; [exact IH|exact E].
Qed.

Lemma ltrim_clean s : starts_clean s → ltrim s = s.
Proof. destruct s as [|a s]; simpl; [reflexivity|]. intros ->. reflexivity. Qed.

Lemma rtrim_starts_clean s : starts_clean s → starts_clean (rtrim s).
Proof.
  destruct s as [|a s]; simpl; [intros; exact I|]. intros Ha.
  destruct (rtrim s); [rewrite Ha|]; exact Ha.
Qed.

Lemma rtrim_idempotent s : rtrim (rtrim s) = rtrim s.
Proof.
  induction s as [|a s IH]; simpl; [reflexivity|].
  destruct (rtrim s) as [|b r] eqn:E.
  - destruct (is_js_space a) eqn:Ha; simpl; [reflexivity|]. rewrite Ha. reflexivity.
  - change (rtrim (String a (String b r))) with
      (match rtrim (String b r) with
       | EmptyString => if is_js_space a then EmptyString else String a EmptyString
       | r' => String a r'
       end).
    rewrite IH. reflexivity.
Qed.

Lemma js_trim_idempotent s : js_trim (js_trim s) = js_trim s.
Proof.
  unfold js_trim.
  rewrite (ltrim_clean (rtrim (ltrim s)))
    by apply rtrim_starts_clean, ltrim_starts_clean.
  apply rtrim_idempotent.
Qed.

Lemma field_or_some_ne s b : s ≠ "" → field_or (Some s) b = s.
Proof. intros Hs. unfold field_or. apply String.eqb_neq in Hs. rewrite Hs. reflexivity. Qed.

Lemma field_or_some_empty b : field_or (Some "") b = b.
Proof. reflexivity. Qed.

Lemma field_or_some_self s : field_or (Some s) "" = s.
Proof. unfold field_or. destruct (String.eqb_spec s ""); congruence. Qed.

Lemma field_or_ne a b : b ≠ "" → field_or a b ≠ "".
Proof.
  intros Hb. unfold field_or. destruct a as [s|]; [|exact Hb].
  destruct (String.eqb_spec s ""); assumption.
Qed.

Lemma field_or_fixed a b : field_or (Some (field_or a b)) b = field_or a b.
Proof.
  destruct (String.eqb_spec (field_or a b) "") as [E|E].
  - rewrite E. simpl. destruct (String.eqb_spec b "") as [->|Hb]; [reflexivity|].
    exfalso. exact (field_or_ne a b Hb E).
  - apply field_or_some_ne, E.
Qed.

Lemma str_or_ne a b : b ≠ "" → str_or a b ≠ "".
Proof.
  intros Hb. unfold str_or. destruct (String.eqb_spec a ""); assumption.
Qed.

Lemma append_ne_empty_r a b : b ≠ "" → a +:+ b ≠ "".
Proof. destruct a; simpl; [auto|discriminate]. Qed.

(** The fields of a normalized profile with a phone that a default
    fills. *)
Lemma normalizeProfile_fields (base : ProfileBase) :
  phone (normalizeProfile base) ≠ "" →
  userId (normalizeProfile base) ≠ ""
  ∧ email (normalizeProfile base) ≠ ""
  ∧ phoneE164 (normalizeProfile base) ≠ ""
  ∧ role (normalizeProfile base) ≠ "".
Proof.
  unfold normalizeProfile. cbn [phone userId email phoneE164 role firebaseUid].
  set (ph := sanitizePhone _). set (fu := field_or (base_firebaseUid base) _).
  intros Hph.
  assert (Hphb : String.eqb ph "" = false) by (apply String.eqb_neq, Hph).
  split.
  { apply field_or_ne. rewrite Hphb. simpl.
    destruct (String.eqb_spec fu ""); simpl; [discriminate|assumption]. }
  split; [apply field_or_ne; rewrite Hphb; simpl; apply append_ne_empty_r; discriminate|].
  split; [|apply field_or_ne; discriminate].
  apply field_or_ne. rewrite toE164India_cases.
  replace (sanitizePhone ph) with ph
    by (symmetry; apply sanitizePhone_fixed;
        [apply sanitizePhone_digits|apply sanitizePhone_length]).
  rewrite Hphb. discriminate.
Qed.

(** X4. A normalized profile with a phone has every identity the page
    keys on: a user id, an email, an E.164 phone, an owner id for
    registrations and a user id for joins, none of them empty; and its
    phone is ten digits at most. *)
Theorem normalizeProfile_identity (base : ProfileBase) :
  phone (normalizeProfile base) ≠ "" →
  userId (normalizeProfile base) ≠ ""
  ∧ email (normalizeProfile base) ≠ ""
  ∧ phoneE164 (normalizeProfile base) ≠ ""
  ∧ role (normalizeProfile base) ≠ ""
  ∧ rsvpOwnerId (Some (normalizeProfile base)) ≠ ""
  ∧ joinUserId (normalizeProfile base) ≠ ""
  ∧ has_identity (Some (normalizeProfile base))
  ∧ all_digits (phone (normalizeProfile base)) = true
  ∧ (String.length (phone (normalizeProfile base)) <= 10)%nat.
Proof.
  intros Hph.
  destruct (normalizeProfile_fields base Hph) as (Huser & Hemail & He164 & Hrole).
  assert (Howner : rsvpOwnerId (Some (normalizeProfile base)) ≠ "").
  { unfold rsvpOwnerId. do 2 apply str_or_ne.
    apply String.eqb_neq in Hph. rewrite Hph. discriminate. }
  split; [exact Huser|]. split; [exact Hemail|]. split; [exact He164|].
  split; [exact Hrole|]. split; [exact Howner|].
  split; [unfold joinUserId; do 2 apply str_or_ne; discriminate|].
  split; [intros [_ Ho]; exact (Howner Ho)|].
  split; [apply sanitizePhone_digits|apply sanitizePhone_length].
Qed.

(** X5. A normalized profile with a phone is a fixed point: written to
    the session storage and normalized again when it is read back, it
    is the same profile. *)
Theorem normalizeProfile_idempotent (base : ProfileBase) :
  phone (normalizeProfile base) ≠ "" →
  normalizeProfile (stored_profile (normalizeProfile base)) = normalizeProfile base.
Proof.
  intros Hph.
  destruct (normalizeProfile_fields base Hph) as (Huser & Hemail & He164 & Hrole).
  assert (Hdig : all_digits (phone (normalizeProfile base)) = true)
    by apply sanitizePhone_digits.
  assert (Hlen : (String.length (phone (normalizeProfile base)) <= 10)%nat)
    by apply sanitizePhone_length.
  destruct (normalizeProfile base) as [r u ph e164 em un dn lr fu] eqn:E.
  cbn [phone userId email phoneE164 role] in *.
  assert (Hdn : js_trim dn = dn ∧ js_trim lr = lr).
  { unfold normalizeProfile in E. injection E as _ _ _ _ _ _ <- <- _.
    split; apply js_trim_idempotent. }
  destruct Hdn as [Hdn Hlr].
  unfold normalizeProfile, stored_profile.
  cbn [base_role base_userId base_phone base_phoneE164 base_email base_unregistered
       base_displayName base_username base_lastRoomId base_firebaseUid base_uid].
  rewrite (field_or_some_ne ph) by assumption.
  rewrite (sanitizePhone_fixed ph) by assumption.
  rewrite (field_or_some_ne r), (field_or_some_ne u), (field_or_some_ne e164),
    (field_or_some_ne em) by assumption.
  cbn [unregistered displayName lastRoomId firebaseUid].
  change (field_or None "") with "". rewrite !field_or_some_self, Hdn, Hlr.
  reflexivity.
Qed.

(** *** Lifecycle over time, and the countdown label *)

(** X6. With its schedule and live flag fixed, a room only moves
    forward in time: from UPCOMING to CURRENT to ENDED, never back. *)
Theorem getRoomState_never_goes_back (room : Room) (t1 t2 : Z) :
  t1 <= t2 →
  phase (getRoomState room t1) <= phase (getRoomState room t2).
Proof.
  intros Ht. rewrite !getRoomState_rules. unfold resolve_rules.
  destruct (getRoomWindow room) as [s e]. simpl.
  destruct (room_isLive room); repeat case_decide; simpl; lia.
Qed.

(** X7. The countdown label shows the two largest units of the time
    left, rounded down: seconds alone under a minute (and "0s" once the
    time has passed), minutes and seconds under an hour, hours and
    minutes under a day, days and hours from then on. *)
Theorem formatCountdown_units (ms : Z) :
  formatCountdown ms =
    if ms <? 1000 then "0s"
    else if ms <? 60000 then pretty (ms / 1000) +:+ "s"
    else if ms <? 3600000
      then pretty (ms / 60000) +:+ "m " +:+ pretty (ms / 1000 mod 60) +:+ "s"
    else if ms <? 86400000
      then pretty (ms / 3600000) +:+ "h " +:+ pretty (ms / 60000 mod 60) +:+ "m"
    else pretty (ms / 86400000) +:+ "d " +:+ pretty (ms / 3600000 mod 24) +:+ "h".
Proof.
  unfold formatCountdown. cbv zeta.
  set (m := Z.max 0 ms).
  assert (Hd : m / 1000 / 86400 = m / 86400000)
    by (rewrite Z.div_div by lia; reflexivity).
  assert (Hh : (m / 1000) mod 86400 / 3600 = m / 3600000 mod 24)
    by (subst m; Z.div_mod_to_equations; lia).
  assert (Hm : (m / 1000) mod 3600 / 60 = m / 60000 mod 60)
    by (subst m; Z.div_mod_to_equations; lia).
  rewrite Hd, Hh, Hm.
  destruct (Z.ltb_spec ms 1000).
  { replace (m / 86400000) with 0 by (subst m; Z.div_mod_to_equations; lia).
    replace (m / 3600000 mod 24) with 0 by (subst m; Z.div_mod_to_equations; lia).
    replace (m / 60000 mod 60) with 0 by (subst m; Z.div_mod_to_equations; lia).
    replace ((m / 1000) mod 60) with 0 by (subst m; Z.div_mod_to_equations; lia).
    reflexivity. }
  replace m with ms in * by (subst m; lia).
  destruct (Z.ltb_spec ms 60000).
  { replace (ms / 86400000) with 0 by (Z.div_mod_to_equations; lia).
    replace (ms / 3600000 mod 24) with 0 by (Z.div_mod_to_equations; lia).
    replace (ms / 60000 mod 60) with 0 by (Z.div_mod_to_equations; lia).
    replace ((ms / 1000) mod 60) with (ms / 1000) by (Z.div_mod_to_equations; lia).
    reflexivity. }
  destruct (Z.ltb_spec ms 3600000).
  { replace (ms / 86400000) with 0 by (Z.div_mod_to_equations; lia).
    replace (ms / 3600000 mod 24) with 0 by (Z.div_mod_to_equations; lia).
    replace (ms / 60000 mod 60) with (ms / 60000) by (Z.div_mod_to_equations; lia).
    assert (ms / 60000 > 0) by (Z.div_mod_to_equations; lia).
    destruct (Z.gtb_spec (ms / 60000) 0); [|lia]. reflexivity. }
  destruct (Z.ltb_spec ms 86400000).
  { replace (ms / 86400000) with 0 by (Z.div_mod_to_equations; lia).
    replace (ms / 3600000 mod 24) with (ms / 3600000) by (Z.div_mod_to_equations; lia).
    assert (ms / 3600000 > 0) by (Z.div_mod_to_equations; lia).
    destruct (Z.gtb_spec (ms / 3600000) 0); [|lia]. reflexivity. }
  assert (ms / 86400000 > 0) by (Z.div_mod_to_equations; lia).
  destruct (Z.gtb_spec (ms / 86400000) 0); [|lia]. reflexivity.
Qed.

(** *** More of the register handler *)

(** X8. A register call for a room that is no longer UPCOMING when the
    call reads the clock is turned down before anything is read or
    written: the store, the transaction log and the local registrations
    stay as they are, the sheet is closed and the error says that
    registration is closed. *)
Theorem register_needs_upcoming (w : World) (p : Profile) (room : Room) :
  profile (ui w) = Some p → selectedRoomForRsvp (ui w) = Some room →
  rsvpOwnerId (Some p) ≠ "" →
  getRoomState room (clock w 0%nat) ≠ upcoming →
  db (handleRegisterForSelectedRoom w).2 = db w
  ∧ faults (handleRegisterForSelectedRoom w).2 = faults w
  ∧ tx_cache (handleRegisterForSelectedRoom w).2 = tx_cache w
  ∧ userRsvps (ui (handleRegisterForSelectedRoom w).2) = userRsvps (ui w)
  ∧ selectedRoomForRsvp (ui (handleRegisterForSelectedRoom w).2) = None
  ∧ error (ui (handleRegisterForSelectedRoom w).2)
    = "Registration closed for this room."
  ∧ notice (ui (handleRegisterForSelectedRoom w).2) = "".
Proof.
  intros Hp Hsel Howner Hstate.
  unfold handleRegisterForSelectedRoom. unfold_monad. rewrite Hsel, Hp.
  apply String.eqb_neq in Howner. rewrite Howner. unfold_monad.
  rewrite bool_decide_eq_false_2 by assumption. unfold_monad.
  repeat split; reflexivity.
Qed.

(** X9. When the ledger transaction commits and the dual write then
    fails, the counter stays incremented while neither record is
    written and the local registrations are not touched; the call ends
    with the retry error and the busy flag released.  The caller still
    has no active record, so a retry runs the transaction again. *)
Theorem register_dual_write_failure (w : World) (p : Profile) (room : Room) :
  profile (ui w) = Some p → selectedRoomForRsvp (ui w) = Some room →
  rsvpOwnerId (Some p) ≠ "" →
  getRoomState room (clock w 0%nat) = upcoming →
  faults w 0%nat = false → faults w 1%nat = false → faults w 2%nat = true →
  isActiveRsvpStatus
    (db w !! p_room_rsvp (room_id room) (rsvpOwnerId (Some p))
     ≫= (.!! "status")) = false →
  ¬ is_closed (db w !! p_rsvp_config (room_id room)) →
  Forall (λ v, ¬ is_closed v) (tx_cache w 0%nat) →
  ∃ cfg' st,
    registerTx (db w !! p_rsvp_config (room_id room)) "" = (Some cfg', st)
    ∧ db (handleRegisterForSelectedRoom w).2
      = <[p_rsvp_config (room_id room) := cfg']> (db w)
    ∧ bookedCount_of (Some cfg') + waitlistCount_of (Some cfg')
      = bookedCount_of (db w !! p_rsvp_config (room_id room))
        + waitlistCount_of (db w !! p_rsvp_config (room_id room)) + 1
    ∧ db (handleRegisterForSelectedRoom w).2
        !! p_room_rsvp (room_id room) (rsvpOwnerId (Some p))
      = db w !! p_room_rsvp (room_id room) (rsvpOwnerId (Some p))
    ∧ db (handleRegisterForSelectedRoom w).2
        !! p_user_rsvp (rsvpOwnerId (Some p)) (room_id room)
      = db w !! p_user_rsvp (rsvpOwnerId (Some p)) (room_id room)
    ∧ userRsvps (ui (handleRegisterForSelectedRoom w).2) = userRsvps (ui w)
    ∧ error (ui (handleRegisterForSelectedRoom w).2)
      = "Failed to register. Please retry."
    ∧ notice (ui (handleRegisterForSelectedRoom w).2) = ""
    ∧ registeringRoom (ui (handleRegisterForSelectedRoom w).2) = "".
Proof.
  intros Hp Hsel Howner Hstate Hf0 Hf1 Hf2 Hinactive Hopen Hcache.
  unfold handleRegisterForSelectedRoom. unfold_monad. rewrite Hsel, Hp.
  apply String.eqb_neq in Howner. rewrite Howner. unfold_monad.
  rewrite Hstate, bool_decide_eq_true_2 by reflexivity. unfold_monad.
  rewrite Hf0. unfold_monad.
  change (option_bind obj jsval (lookup "status") ?x) with (x ≫= (.!! "status")).
  rewrite Hinactive.
  run_handler; try congruence;
    try (exfalso; eapply no_closed_snapshot; eassumption);
    try contradiction;
    match goal with
    | Htx : registerTx _ _ = (Some _, ?st) |- _ =>
        pose proof (registerTx_assigns _ _ _ _ Htx) as Hst;
        pose proof (registerTx_counters _ _ _ _ Htx) as (_ & Hcount)
    end;
    try (destruct Hst; subst; discriminate);
    eexists _, _; (split; [eassumption|]); (split; [reflexivity|]);
    (split; [destruct Hcount as [(_ & _ & -> & ->)|(_ & _ & -> & ->)]; lia|]);
    rewrite !lookup_insert_ne by path_ne; repeat split; reflexivity.
Qed.

Lemma register_success_ui w room p :
  profile (ui w) = Some p → selectedRoomForRsvp (ui w) = Some room →
  notice (ui (handleRegisterForSelectedRoom w).2)
    = "Registered for " +:+ room_id room +:+ ". It now appears in Your Shows."
  ∨ notice (ui (handleRegisterForSelectedRoom w).2)
    = "Added to waitlist for " +:+ room_id room +:+ "." →
  rsvpOwnerId (Some p) ≠ ""
  ∧ profile (ui (handleRegisterForSelectedRoom w).2) = Some p
  ∧ ∃ st s e now,
      (st = RSVP_REGISTERED ∨ st = RSVP_WAITLISTED)
      ∧ userRsvps (ui (handleRegisterForSelectedRoom w).2)
        = <[room_id room := userRsvpPayload st (room_id room) s e now]>
            (userRsvps (ui w)).
Proof.
  intros Hp Hsel.
  unfold handleRegisterForSelectedRoom. unfold_monad. rewrite Hsel, Hp.
  destruct (String.eqb_spec (rsvpOwnerId (Some p)) "") as [E|E]; unfold_monad;
    [intros [Hn|Hn]; discriminate Hn|].
  run_handler; intros [Hn|Hn]; try discriminate Hn;
    (split; [exact E|]); (split; [first [reflexivity | exact Hp]|]);
    match goal with
    | Htx : registerTx _ _ = (Some _, ?st) |- _ =>
        pose proof (registerTx_assigns _ _ _ _ Htx) as Hst
    end;
    eexists _, _, _, _; (split; [exact Hst|reflexivity]).
Qed.

(** X10. A room the caller has just registered for, REGISTERED or
    WAITLISTED, shows in "yours" at the next computation of the buckets
    from the page's own state, and in neither "upcoming" nor "current",
    whatever the time and before the registrations listener reports. *)
Theorem registered_room_moves_to_yours (w : World) (p : Profile) (room r : Room)
    (rooms : list Room) (now : Z) :
  profile (ui w) = Some p → selectedRoomForRsvp (ui w) = Some room →
  notice (ui (handleRegisterForSelectedRoom w).2)
    = "Registered for " +:+ room_id room +:+ ". It now appears in Your Shows."
  ∨ notice (ui (handleRegisterForSelectedRoom w).2)
    = "Added to waitlist for " +:+ room_id room +:+ "." →
  r ∈ rooms → room_id r = room_id room →
  r ∈ bucket_yours
        (getBuckets (profile (ui (handleRegisterForSelectedRoom w).2)) rooms
           (userRsvps (ui (handleRegisterForSelectedRoom w).2)) now)
  ∧ (r ∉ bucket_upcoming
           (getBuckets (profile (ui (handleRegisterForSelectedRoom w).2)) rooms
              (userRsvps (ui (handleRegisterForSelectedRoom w).2)) now))
  ∧ (r ∉ bucket_current
           (getBuckets (profile (ui (handleRegisterForSelectedRoom w).2)) rooms
              (userRsvps (ui (handleRegisterForSelectedRoom w).2)) now)).
Proof.
  intros Hp Hsel Hok Hin Hid.
  destruct (register_success_ui w room p Hp Hsel Hok)
    as (Howner & -> & st & s & e & t & Hst & ->).
  unfold getBuckets. cbn [bucket_yours bucket_upcoming bucket_current].
  assert (Hyours : r ∈ yourShows (Some p) rooms
                         (<[room_id room := userRsvpPayload st (room_id room) s e t]>
                            (userRsvps (ui w))) now).
  { apply yourShows_elem. split; [exact Hin|]. split.
    - intros [_ Ho]. exact (Howner Ho).
    - apply joinedRoom_true. right.
      rewrite Hid, lookup_insert_eq. simpl. rewrite userRsvpPayload_status.
      apply isActiveRsvpStatus_assigned, Hst. }
  split; [exact Hyours|].
  unfold upcomingShows, currentShows.
  split; rewrite list_elem_of_filter, yourSet_elem; intros [[_ Hnot] _];
    apply Hnot; exists r; auto.
Qed.

(** *** The room action *)

Lemma lower_ascii_idempotent a : lower_ascii (lower_ascii a) = lower_ascii a.
Proof. destruct a as [[] [] [] [] [] [] [] []]; reflexivity. Qed.

Lemma toLowerCase_idempotent s : toLowerCase (toLowerCase s) = toLowerCase s.
Proof.
  induction s as [|a s IH]; simpl; [reflexivity|].
  rewrite lower_ascii_idempotent, IH. reflexivity.
Qed.

Lemma status_string_string x : status_string (Some (JStr x)) = x.
Proof.
  unfold status_string. simpl. destruct (String.eqb_spec x ""); subst; reflexivity.
Qed.

Lemma isActiveRsvpStatus_lowered status :
  isActiveRsvpStatus (Some (JStr (toLowerCase (status_string status))))
  = isActiveRsvpStatus status.
Proof.
  unfold isActiveRsvpStatus. cbv zeta.
  change (if truthy ?v then from_option js_String "" ?v else "")
    with (status_string v).
  rewrite status_string_string, toLowerCase_idempotent. reflexivity.
Qed.

(** X11. The label of a room's button tells what a tap does, for an
    idle page.  "Show Ended": the tap reports that the show has ended
    and changes neither the store nor the open sheet.  "Register Slot":
    the tap opens the registration sheet for the room.  "Locked": the
    tap opens the waiting screen for the room.  "Waitlisted" and "Tap to
    Enter", the labels of a CURRENT room: the tap runs the join, whether
    or not the caller holds a registration. *)
Theorem room_action_follows_label (w : World) (nowMs : Z) (room : Room) :
  joiningRoom (ui w) = "" → registeringRoom (ui w) = "" → room_id room ≠ "" →
  match getRoomState room nowMs with
  | ended =>
      getActionLabel (ui w) nowMs room = "Show Ended"
      ∧ db (handleRoomAction nowMs room w).2 = db w
      ∧ error (ui (handleRoomAction nowMs room w).2) = "This show has ended."
      ∧ selectedRoomForRsvp (ui (handleRoomAction nowMs room w).2)
        = selectedRoomForRsvp (ui w)
      ∧ selectedLockedRoom (ui (handleRoomAction nowMs room w).2)
        = selectedLockedRoom (ui w)
      ∧ location (ui (handleRoomAction nowMs room w).2) = location (ui w)
  | upcoming =>
      db (handleRoomAction nowMs room w).2 = db w
      ∧ error (ui (handleRoomAction nowMs room w).2) = ""
      ∧ location (ui (handleRoomAction nowMs room w).2) = location (ui w)
      ∧ if isActiveRsvpStatus (userRsvps (ui w) !! room_id room ≫= (.!! "status"))
        then (getActionLabel (ui w) nowMs room = "Locked"
              ∨ getActionLabel (ui w) nowMs room
                = "Locked - "
                  +:+ formatCountdown ((getRoomWindow room).1 - nowMs))
             ∧ selectedLockedRoom (ui (handleRoomAction nowMs room w).2) = Some room
             ∧ selectedRoomForRsvp (ui (handleRoomAction nowMs room w).2) = None
        else getActionLabel (ui w) nowMs room = "Register Slot"
             ∧ selectedRoomForRsvp (ui (handleRoomAction nowMs room w).2) = Some room
             ∧ selectedLockedRoom (ui (handleRoomAction nowMs room w).2) = None
  | current =>
      (getActionLabel (ui w) nowMs room = "Waitlisted"
       ∨ getActionLabel (ui w) nowMs room = "Tap to Enter")
      ∧ (handleRoomAction nowMs room w).2
        = (handleJoinRoom (room_id room)
             {| db := db w;
                ui := setUi_selectedLockedRoom None
                        (setUi_notice "" (setUi_error "" (ui w)));
                clock := clock w; faults := faults w;
                push_keys := push_keys w; tx_cache := tx_cache w |}).2
  end.
Proof.
  intros Hj Hr Hid.
  unfold handleRoomAction, getActionLabel. unfold_monad. rewrite Hj, Hr.
  assert (Hne : String.eqb "" (room_id room) = false)
    by (apply String.eqb_neq; congruence).
  rewrite Hne. cbv zeta. rewrite isActiveRsvpStatus_lowered.
  change (option_bind obj jsval (lookup "status") ?x) with (x ≫= (.!! "status")).
  change ((""=? "")%string) with true. unfold_monad.
  destruct (getRoomState room nowMs); simpl bool_decide; unfold_monad.
  - destruct (isActiveRsvpStatus _); unfold_monad;
      repeat split; try reflexivity.
    destruct (truthyZ _); [right|left]; reflexivity.
  - split; [|reflexivity].
    destruct (String.eqb _ RSVP_WAITLISTED); [left|right]; reflexivity.
  - repeat split; reflexivity.
Qed.

(** How a join ends, for a caller with a display name: it navigates
    into the room and keeps the busy flag, or it reports the failure and
    releases the flag. *)
Lemma join_outcome roomId w p :
  profile (ui w) = Some p → displayName p ≠ "" →
  (location (ui (handleJoinRoom roomId w).2)
   = Some ("/room/" +:+ roomId +:+ "?dbKey=" +:+ push_keys w 0%nat
           +:+ "&uid=" +:+ joinUserId p +:+ "&role=" +:+ str_or (role p) "audience")
   ∧ joiningRoom (ui (handleJoinRoom roomId w).2) = roomId
   ∧ error (ui (handleJoinRoom roomId w).2) = ""
   ∧ faults w 0%nat = false ∧ faults w 1%nat = false ∧ faults w 2%nat = false)
  ∨ (location (ui (handleJoinRoom roomId w).2) = location (ui w)
     ∧ joiningRoom (ui (handleJoinRoom roomId w).2) = ""
     ∧ error (ui (handleJoinRoom roomId w).2) = "Failed to enter room. Please retry.").
Proof.
  intros Hp Hname. unfold handleJoinRoom. unfold_monad. rewrite Hp.
  apply String.eqb_neq in Hname. rewrite Hname. unfold_monad.
  destruct (faults w 0%nat) eqn:F0; unfold_monad; [right; repeat split; reflexivity|].
  destruct (faults w 1%nat) eqn:F1; unfold_monad; [right; repeat split; reflexivity|].
  run_handler; first [right; repeat split; reflexivity
                     |left; repeat split; first [reflexivity|assumption]].
Qed.

(** X12. A join by a caller without a display name writes nothing and
    sends the caller to the login page.  A join by a caller with one
    ends in the room, with the busy flag kept for the navigation, or
    ends with the retry error and the flag released, in which case it
    does not navigate.  The session record is written by the first
    round trip and stays when a later write fails; when the first
    round trip fails nothing is written. *)
Theorem join_ends_in_room_or_error (w : World) (roomId : string) (p : Profile) :
  profile (ui w) = Some p →
  (displayName p = "" →
   db (handleJoinRoom roomId w).2 = db w
   ∧ location (ui (handleJoinRoom roomId w).2) = Some "/login"
   ∧ error (ui (handleJoinRoom roomId w).2)
     = "Display name missing. Please login again.")
  ∧ (displayName p ≠ "" →
     ((location (ui (handleJoinRoom roomId w).2)
       = Some ("/room/" +:+ roomId +:+ "?dbKey=" +:+ push_keys w 0%nat
               +:+ "&uid=" +:+ joinUserId p
               +:+ "&role=" +:+ str_or (role p) "audience")
       ∧ joiningRoom (ui (handleJoinRoom roomId w).2) = roomId
       ∧ error (ui (handleJoinRoom roomId w).2) = ""
       ∧ faults w 0%nat = false ∧ faults w 1%nat = false ∧ faults w 2%nat = false)
      ∨ (location (ui (handleJoinRoom roomId w).2) = location (ui w)
         ∧ joiningRoom (ui (handleJoinRoom roomId w).2) = ""
         ∧ error (ui (handleJoinRoom roomId w).2)
           = "Failed to enter room. Please retry."))
     ∧ (faults w 0%nat = false →
        db (handleJoinRoom roomId w).2 !! p_audience_data roomId (push_keys w 0%nat)
          ≫= (.!! "userId") = Some (JStr (joinUserId p))
        ∧ db (handleJoinRoom roomId w).2 !! p_audience_data roomId (push_keys w 0%nat)
            ≫= (.!! "joinedAt") = Some (JNum (clock w 0%nat)))
     ∧ (faults w 0%nat = true → db (handleJoinRoom roomId w).2 = db w)).
Proof.
  intros Hp. split.
  - intros Hname. unfold handleJoinRoom. unfold_monad. rewrite Hp, Hname.
    unfold_monad. repeat split; reflexivity.
  - intros Hname. split; [exact (join_outcome roomId w p Hp Hname)|].
    unfold handleJoinRoom. unfold_monad. rewrite Hp.
    apply String.eqb_neq in Hname. rewrite Hname. unfold_monad.
    split; intros F0; rewrite F0; unfold_monad; [|reflexivity].
    run_handler; db_lookups; split; reflexivity.
Qed.

(** The join handler leaves the two sheets as they are. *)
Lemma join_keeps_sheets roomId w :
  selectedRoomForRsvp (ui (handleJoinRoom roomId w).2) = selectedRoomForRsvp (ui w)
  ∧ selectedLockedRoom (ui (handleJoinRoom roomId w).2) = selectedLockedRoom (ui w)
  ∧ registeringRoom (ui (handleJoinRoom roomId w).2) = registeringRoom (ui w).
Proof.
  unfold handleJoinRoom. unfold_monad.
  destruct (profile (ui w)) as [p|]; [|repeat split; reflexivity].
  destruct (String.eqb (displayName p) ""); unfold_monad; [repeat split; reflexivity|].
  destruct (faults w 0%nat) eqn:F0; unfold_monad; [repeat split; reflexivity|].
  destruct (faults w 1%nat) eqn:F1; unfold_monad; [repeat split; reflexivity|].
  run_handler; repeat split; reflexivity.
Qed.

Lemma register_flags w :
  joiningRoom (ui (handleRegisterForSelectedRoom w).2) = joiningRoom (ui w)
  ∧ selectedLockedRoom (ui (handleRegisterForSelectedRoom w).2)
    = selectedLockedRoom (ui w)
  ∧ (registeringRoom (ui (handleRegisterForSelectedRoom w).2) = ""
     ∨ registeringRoom (ui (handleRegisterForSelectedRoom w).2)
       = registeringRoom (ui w)).
Proof.
  unfold handleRegisterForSelectedRoom. unfold_monad.
  destruct (profile (ui w)) as [p|]; [|repeat split; auto].
  destruct (selectedRoomForRsvp (ui w)) as [room|]; [|repeat split; auto].
  run_handler; repeat split; auto.
Qed.

(** X13. The busy flags are single-flight guards that do not stick.
    While a join or a registration is in progress a tap on a room does
    nothing at all.  A register call releases its flag on every path,
    so an idle page is idle again after it; and after a join an idle
    page is idle again unless the join navigated into the room. *)
Theorem busy_flags_guard_and_release :
  (∀ w nowMs room, ¬ idle (ui w) → handleRoomAction nowMs room w = (Ok tt, w))
  ∧ (∀ w, idle (ui w) → idle (ui (handleRegisterForSelectedRoom w).2))
  ∧ (∀ w roomId,
      idle (ui w) →
      idle (ui (handleJoinRoom roomId w).2)
      ∨ joiningRoom (ui (handleJoinRoom roomId w).2) = roomId
        ∧ ∃ target, location (ui (handleJoinRoom roomId w).2) = Some target
                    ∧ location (ui (handleJoinRoom roomId w).2) ≠ Some "/login").
Proof.
  split; [|split].
  - intros w nowMs room Hbusy. unfold handleRoomAction. unfold_monad.
    destruct (String.eqb_spec (joiningRoom (ui w)) "") as [Ej|Ej];
      destruct (String.eqb_spec (registeringRoom (ui w)) "") as [Er|Er];
      simpl; try reflexivity.
    exfalso. apply Hbusy. split; assumption.
  - intros w [Hj Hr]. destruct (register_flags w) as (Hj' & _ & [Hr'|Hr']).
    + split; congruence.
    + split; congruence.
  - intros w roomId [Hj Hr].
    destruct (join_keeps_sheets roomId w) as (_ & _ & Hr').
    destruct (profile (ui w)) as [p|] eqn:Hp.
    + destruct (String.eqb_spec (displayName p) "") as [Hname|Hname].
      * left. unfold idle. rewrite Hr'. split; [|exact Hr].
        unfold handleJoinRoom. unfold_monad. rewrite Hp, Hname. unfold_monad.
        exact Hj.
      * destruct (join_outcome roomId w p Hp Hname)
          as [(Hloc & Hjoin & _)|(_ & Hjoin & _)].
        -- right. split; [exact Hjoin|]. eexists. split; [exact Hloc|].
           rewrite Hloc. intros [=].
        -- left. split; congruence.
    + left. unfold idle. rewrite Hr'. split; [|exact Hr].
      unfold handleJoinRoom. unfold_monad. rewrite Hp. exact Hj.
Qed.

Lemma gate_sheets w :
  selectedRoomForRsvp (ui (handleLockedTimerFinished w).2)
  = selectedRoomForRsvp (ui w)
  ∧ (selectedLockedRoom (ui (handleLockedTimerFinished w).2) = None
     ∨ selectedLockedRoom (ui (handleLockedTimerFinished w).2)
       = selectedLockedRoom (ui w)).
Proof.
  unfold handleLockedTimerFinished. unfold_monad.
  destruct (selectedLockedRoom (ui w)) as [selected|] eqn:Hsel; [|split; auto].
  destruct (faults w 0%nat); unfold_monad; [split; auto|].
  destruct (bool_decide _); unfold_monad; [split; auto|].
  match goal with
  | |- context [handleJoinRoom ?r ?w0] =>
      pose proof (handleJoinRoom_ok r w0) as Hok;
      pose proof (join_keeps_sheets r w0) as (Hs & Hl & _);
      destruct (handleJoinRoom r w0) as [res w1]
  end.
  simpl in Hok, Hs, Hl. subst res. unfold_monad. split; [exact Hs|left; exact Hl].
Qed.

Lemma register_sheets w :
  selectedRoomForRsvp (ui (handleRegisterForSelectedRoom w).2) = None
  ∨ selectedRoomForRsvp (ui (handleRegisterForSelectedRoom w).2)
    = selectedRoomForRsvp (ui w).
Proof.
  unfold handleRegisterForSelectedRoom. unfold_monad.
  destruct (profile (ui w)) as [p|]; [|auto].
  destruct (selectedRoomForRsvp (ui w)) as [room|] eqn:Hsel; [|auto].
  run_handler; auto.
Qed.

(** X14. The registration sheet and the waiting screen never hold a
    room at the same time: every handler keeps that, the room action
    from any idle or busy state, the register call, the countdown gate
    and the join. *)
Theorem one_sheet_at_a_time (w : World) :
  one_sheet (ui w) →
  (∀ nowMs room, one_sheet (ui (handleRoomAction nowMs room w).2))
  ∧ one_sheet (ui (handleRegisterForSelectedRoom w).2)
  ∧ one_sheet (ui (handleLockedTimerFinished w).2)
  ∧ (∀ roomId, one_sheet (ui (handleJoinRoom roomId w).2)).
Proof.
  intros Hone. unfold one_sheet in *. split; [|split; [|split]].
  - intros nowMs room. unfold handleRoomAction. unfold_monad.
    destruct (negb _ || negb _); [exact Hone|]. unfold_monad.
    destruct (bool_decide (getRoomState room nowMs = ended)); unfold_monad;
      [exact Hone|].
    destruct (bool_decide (getRoomState room nowMs = upcoming)); unfold_monad.
    + destruct (isActiveRsvpStatus _); unfold_monad; [left|right]; reflexivity.
    + match goal with
      | |- context [handleJoinRoom ?r ?w0] =>
          destruct (join_keeps_sheets r w0) as (_ & Hl & _)
      end.
      right. rewrite Hl. reflexivity.
  - destruct (register_sheets w) as [->| ->]; [left; reflexivity|].
    destruct (register_flags w) as (_ & -> & _). exact Hone.
  - destruct (gate_sheets w) as (-> & [->| ->]); [right; reflexivity|exact Hone].
  - intros roomId. destruct (join_keeps_sheets roomId w) as (-> & -> & _). exact Hone.
Qed.

(** *** The seat count *)

Lemma number_of_or_0_num z : number_of_or_0 (Some (JNum z)) = Some z.
Proof.
  unfold number_of_or_0. simpl. destruct (truthyZ z) eqn:E; [reflexivity|].
  apply truthyZ_false in E. subst. reflexivity.
Qed.

Lemma filled_field_twice current k :
  filled_field (Some (default ∅ current ∪ DEFAULT_RSVP_CONFIG)) k
  = filled_field current k.
Proof.
  unfold filled_field at 1. simpl. rewrite filled_lookup.
  destruct (filled_field current k) eqn:E; [reflexivity|].
  unfold filled_field in E. destruct (current ≫= _); [discriminate|exact E].
Qed.

(** X15. For a room whose stored capacity and booked count are numbers
    (or missing), the seat count of the registration sheet is the
    capacity less the bookings, never below zero, computed on the same
    filled config the register transaction reads.  With a positive
    capacity it shows no seat left exactly when the transaction would
    waitlist the caller.  With capacity zero it shows no seat left
    although the transaction never waitlists. *)
Theorem seatsLeft_and_ledger (id : string) (doc : RoomDoc) (c b : Z) :
  filled_field (doc_rsvp_config doc) "capacity" = Some (JNum c) →
  filled_field (doc_rsvp_config doc) "bookedCount" = Some (JNum b) →
  seatsLeft (Some (roomEntry id doc)) = Some (Z.max 0 (c - b))
  ∧ capacity_of (doc_rsvp_config doc) = c
  ∧ bookedCount_of (doc_rsvp_config doc) = b
  ∧ (c > 0 →
     (seatsLeft (Some (roomEntry id doc)) = Some 0 ↔ is_full (doc_rsvp_config doc)))
  ∧ (c = 0 → 0 <= b →
     seatsLeft (Some (roomEntry id doc)) = Some 0
     ∧ ¬ is_full (doc_rsvp_config doc)).
Proof.
  intros Hc Hb.
  assert (Hseats : seatsLeft (Some (roomEntry id doc)) = Some (Z.max 0 (c - b))).
  { unfold seatsLeft, roomEntry. cbv zeta. simpl.
    pose proof (filled_lookup (Some (default ∅ (doc_rsvp_config doc)
                                     ∪ DEFAULT_RSVP_CONFIG))) as Hl.
    simpl in Hl. rewrite !Hl, !filled_field_twice, Hc, Hb, !number_of_or_0_num.
    reflexivity. }
  assert (Hcap : capacity_of (doc_rsvp_config doc) = c)
    by (unfold capacity_of; rewrite Hc; apply number_or_0_num).
  assert (Hbk : bookedCount_of (doc_rsvp_config doc) = b)
    by (unfold bookedCount_of; rewrite Hb; apply number_or_0_num).
  split; [exact Hseats|]. split; [exact Hcap|]. split; [exact Hbk|].
  unfold is_full. rewrite Hseats, Hcap, Hbk. split.
  - intros Hpos. split.
    + intros [= E]. lia.
    + intros [_ Hfull]. f_equal. lia.
  - intros -> Hb0. split; [f_equal; lia|lia].
Qed.

(** *** The countdown of the waiting screen *)

(** X16. The countdown of the waiting screen fires on the first tick
    after the target time, not at it.  Until then it shows the time
    left rounded down to the second, as hours without a cap and minutes
    and seconds below sixty.  When it fires for the start of the
    selected room, that room, as the page holds it, is no longer
    UPCOMING. *)
Theorem waitingTick_fires_after_target (nextEvent : string) (target now : Z) :
  nextEvent ≠ "" → Date_parse nextEvent = Some target →
  (waitingTick (Some nextEvent) now = TimerFinished ↔ target < now)
  ∧ (now <= target →
     ∃ h m s,
       waitingTick (Some nextEvent) now = TimeLeft (Some (h, m, s))
       ∧ 0 <= h ∧ 0 <= m < 60 ∧ 0 <= s < 60
       ∧ 0 <= (target - now) - (h * 3600000 + m * 60000 + s * 1000) < 1000)
  ∧ (∀ room,
       (getRoomWindow room).1 = target → target ≠ 0 →
       waitingTick (Some nextEvent) now = TimerFinished →
       getRoomState room now ≠ upcoming).
Proof.
  intros Hne Hparse.
  assert (Htick : waitingTick (Some nextEvent) now
                  = if target - now <? 0 then TimerFinished
                    else TimeLeft (Some ((target - now) / (1000 * 60 * 60),
                                         (target - now) mod (1000 * 60 * 60) / (1000 * 60),
                                         (target - now) mod (1000 * 60) / 1000))).
  { unfold waitingTick. apply String.eqb_neq in Hne. rewrite Hne, Hparse. reflexivity. }
  assert (Hfire : waitingTick (Some nextEvent) now = TimerFinished ↔ target < now).
  { rewrite Htick. destruct (Z.ltb_spec (target - now) 0); split;
      try reflexivity; try lia; discriminate. }
  split; [exact Hfire|]. split.
  - intros Hle. rewrite Htick.
    destruct (Z.ltb_spec (target - now) 0); [lia|].
    eexists _, _, _. split; [reflexivity|].
    set (d := target - now) in *. Z.div_mod_to_equations. lia.
  - intros room Hstart Hnz Hfired. apply Hfire in Hfired.
    rewrite getRoomState_rules, Hstart. unfold resolve_rules.
    destruct (getRoomWindow room) as [s e]. simpl in *. subst s.
    destruct (room_isLive room); repeat case_decide; try discriminate; lia.
Qed.

(** *** The order of "Your Shows" *)

Lemma yourShows_compare_total last now :
  localeCompare_consistent → Total (not_after (yourShows_compare last now)).
Proof.
  intros [Htot _] a b. unfold not_after, yourShows_compare.
  destruct (negb (last =? "")%string); simpl.
  - destruct (String.eqb (room_id a) last); [left; lia|].
    destruct (String.eqb (room_id b) last); [right; lia|].
    cbv zeta. repeat match goal with
    | |- context [negb (?x =? ?y)] => destruct (Z.eqb_spec x y); simpl
    end; try lia. apply Htot.
  - cbv zeta. repeat match goal with
    | |- context [negb (?x =? ?y)] => destruct (Z.eqb_spec x y); simpl
    end; try lia. apply Htot.
Qed.

Lemma yourShows_compare_pinned_second last now a b :
  ¬ is_pinned last a → is_pinned last b → yourShows_compare last now a b = 1.
Proof.
  intros Ha [Hne Hb]. unfold yourShows_compare.
  apply String.eqb_neq in Hne. rewrite Hne. simpl.
  destruct (String.eqb_spec (room_id a) last) as [Ea|_].
  - exfalso. apply Ha. split; [apply String.eqb_neq, Hne|exact Ea].
  - apply String.eqb_eq in Hb. rewrite Hb. reflexivity.
Qed.

Lemma yourShows_compare_unpinned last now a b :
  ¬ is_pinned last a → ¬ is_pinned last b →
  yourShows_compare last now a b <= 0 → rank_then_start now a b.
Proof.
  intros Ha Hb. unfold yourShows_compare, rank_then_start.
  assert (Hn : ∀ r, ¬ is_pinned last r →
               negb (last =? "")%string && (room_id r =? last)%string = false).
  { intros r Hr. destruct (String.eqb_spec last ""); [reflexivity|]. simpl.
    apply String.eqb_neq. intros E. apply Hr. split; assumption. }
  rewrite (Hn a Ha), (Hn b Hb). cbv zeta.
  repeat match goal with
  | |- context [negb (?x =? ?y)] => destruct (Z.eqb_spec x y); simpl
  end; lia.
Qed.

Lemma dec_is_pinned last r : is_pinned last r ∨ ¬ is_pinned last r.
Proof.
  unfold is_pinned. destruct (decide (last = "")), (decide (room_id r = last));
    tauto.
Qed.

Lemma sorted_unpinned_head last now a l :
  Sorted (not_after (yourShows_compare last now)) (a :: l) →
  ¬ is_pinned last a → Forall (λ r, ¬ is_pinned last r) (a :: l).
Proof.
  revert a. induction l as [|b l IH]; intros a Hs Ha.
  - constructor; [exact Ha|constructor].
  - constructor; [exact Ha|]. inversion Hs as [|? ? Hs' Hhd]; subst.
    apply IH; [exact Hs'|]. inversion Hhd as [|? ? Hab]; subst.
    intros Hb. unfold not_after in Hab.
    rewrite (yourShows_compare_pinned_second last now a b Ha Hb) in Hab. lia.
Qed.

Lemma sorted_unpinned_rank last now l :
  Forall (λ r, ¬ is_pinned last r) l →
  Sorted (not_after (yourShows_compare last now)) l →
  StronglySorted (rank_then_start now) l.
Proof.
  intros Hall Hs. apply Sorted_StronglySorted.
  { intros a b c. unfold rank_then_start. lia. }
  induction Hs as [|a l Hs IH Hhd]; [constructor|].
  inversion Hall as [|? ? Ha Hl]; subst. constructor; [apply IH, Hl|].
  destruct Hhd as [|b l Hab]; constructor.
  inversion Hl; subst. apply (yourShows_compare_unpinned last); assumption.
Qed.

Lemma yourShows_ids_NoDup profile rooms rsvps now :
  NoDup (room_id <$> rooms) →
  NoDup (room_id <$> yourShows profile rooms rsvps now).
Proof.
  intros Hnd. unfold yourShows. destruct (_ && _); [constructor|].
  unfold js_sort. rewrite merge_sort_Permutation.
  eapply sublist_NoDup; [exact Hnd|]. apply fmap_sublist, sublist_filter.
Qed.

(** X17. With ids that [localeCompare] orders consistently and a catalog
    without repeated ids, "Your Shows" is the room visited last, when it
    is one of the user's, followed by the other rooms by state (running,
    then upcoming, then ended) and within a state by start time, rooms
    without a start time last. *)
Theorem yourShows_order (profile : option Profile) (rooms : list Room)
    (rsvps : gmap string obj) (now : Z) :
  localeCompare_consistent →
  NoDup (room_id <$> rooms) →
  ∃ pinned rest,
    yourShows profile rooms rsvps now = (pinned ++ rest)%list
    ∧ (length pinned ≤ 1)%nat
    ∧ Forall (is_pinned (from_option lastRoomId "" profile)) pinned
    ∧ Forall (λ r, ¬ is_pinned (from_option lastRoomId "" profile) r) rest
    ∧ StronglySorted (rank_then_start now) rest.
Proof.
  intros Hlc Hnd.
  pose proof (yourShows_ids_NoDup profile rooms rsvps now Hnd) as Hids.
  set (last := from_option lastRoomId "" profile).
  assert (Hs : Sorted (not_after (yourShows_compare last now))
                 (yourShows profile rooms rsvps now)).
  { unfold yourShows. destruct (_ && _); [constructor|].
    pose proof (yourShows_compare_total last now Hlc).
    apply (Sorted_merge_sort _). }
  destruct (yourShows profile rooms rsvps now) as [|a l]; [exists [], []|].
  { repeat split; try constructor. simpl. lia. }
  destruct (dec_is_pinned last a) as [Ha|Ha].
  - exists [a], l.
    assert (Hrest : Forall (λ r, ¬ is_pinned last r) l).
    { apply Forall_forall. intros r Hr [_ Er].
      rewrite fmap_cons in Hids. apply NoDup_cons in Hids as [Hnotin _].
      apply Hnotin. destruct Ha as [_ Ea]. rewrite Ea, <- Er.
      apply list_elem_of_fmap. exists r. split; [reflexivity|exact Hr]. }
    split; [reflexivity|]. split; [simpl; lia|].
    split; [constructor; [exact Ha|constructor]|]. split; [exact Hrest|].
    apply (sorted_unpinned_rank last); [exact Hrest|].
    inversion Hs; assumption.
  - exists [], (a :: l).
    pose proof (sorted_unpinned_head last now a l Hs Ha) as Hall.
    split; [reflexivity|]. split; [simpl; lia|]. split; [constructor|].
    split; [exact Hall|]. apply (sorted_unpinned_rank last); assumption.
Qed.


End Properties.

(** ** Sample evaluations *)

(** C7, as stated, fails on the code.  At 2500 the room "r1" (1000 to
    2000) has ENDED and the caller holds a registration for it: it is in
    "yours".  The room "r2" (from 5000) is UPCOMING and the caller holds
    no registration for it, but has an entry in its audience index: it
    is in "yours" and not in "upcoming". *)
Lemma C7_ended_room_in_yours :
  @getRoomState sample_builtins (scheduled_room "r1" ∅) 2500 = ended
  ∧ @getRoomState sample_builtins later_room 2500 = upcoming
  ∧ isActiveRsvpStatus (sample_rsvps !! "r2" ≫= (.!! "status")) = false
  ∧ @getBuckets sample_builtins (Some sample_profile)
      [scheduled_room "r1" ∅; later_room] sample_rsvps 2500
    = {| bucket_yours := [later_room; scheduled_room "r1" ∅];
         bucket_upcoming := [];
         bucket_current := [] |}.
Proof. vm_compute. repeat split; reflexivity. Qed.

#[local] Existing Instance sample_builtins.

(** Three committed registrations against a room with two seats. *)
Lemma C1_three_callers_two_seats :
  ∃ w',
    committed_registers "r1" 3 (sample_world two_seat_db None 500)
    = Some (["registered"; "registered"; "waitlisted"], w')
    ∧ bookedCount_of (db w' !! p_rsvp_config "r1") = 2
    ∧ waitlistCount_of (db w' !! p_rsvp_config "r1") = 1.
Proof.
  destruct (@C1_capacity_never_exceeded sample_builtins) as [_ Hseq].
  destruct (Hseq "r1" (sample_world two_seat_db None 500) 2 3%nat)
    as [Hres Hcommit]; try reflexivity.
  destruct Hcommit as [[statuses w'] Erun];
    [reflexivity|reflexivity|vm_compute; discriminate|].
  exists w'. destruct (Hres statuses w' Erun) as (-> & Hb & _ & Hw).
  split; [exact Erun|]. split; [exact Hb|exact (Hw eq_refl)].
Defined.

(** A register call for a closed room that is still UPCOMING. *)
Lemma C3_closed_room_sample :
  db (handleRegisterForSelectedRoom
        (sample_world closed_room_db (Some (scheduled_room "r1" ∅)) 500)).2
  = closed_room_db
  ∧ error (ui (handleRegisterForSelectedRoom
                 (sample_world closed_room_db (Some (scheduled_room "r1" ∅)) 500)).2)
    = "RSVP is currently closed for this room.".
Proof.
  destruct (@C3_closed_room_refuses sample_builtins
              (sample_world closed_room_db (Some (scheduled_room "r1" ∅)) 500)
              (scheduled_room "r1" ∅))
    as (Hdb & _ & Hrefused); [reflexivity|vm_compute; reflexivity|].
  split; [exact Hdb|].
  apply (Hrefused sample_profile); try reflexivity. vm_compute. discriminate.
Defined.

(** Two register calls of the sample caller for the same room. *)
Lemma C4_second_call_sample :
  ∃ st,
    st = "registered"
    ∧ db (handleRegisterForSelectedRoom
            (sample_world
               (db (handleRegisterForSelectedRoom
                      (sample_world ∅ (Some (scheduled_room "r1" ∅)) 500)).2)
               (Some (scheduled_room "r1" ∅)) 600)).2
      = db (handleRegisterForSelectedRoom
              (sample_world ∅ (Some (scheduled_room "r1" ∅)) 500)).2
    ∧ notice (ui (handleRegisterForSelectedRoom
                    (sample_world
                       (db (handleRegisterForSelectedRoom
                              (sample_world ∅ (Some (scheduled_room "r1" ∅)) 500)).2)
                       (Some (scheduled_room "r1" ∅)) 600)).2)
      = "Already " +:+ st +:+ " for r1.".
Proof.
  destruct (@C4_register_idempotent sample_builtins) as [_ Htwice].
  destruct (Htwice (sample_world ∅ (Some (scheduled_room "r1" ∅)) 500)
              (sample_world
                 (db (handleRegisterForSelectedRoom
                        (sample_world ∅ (Some (scheduled_room "r1" ∅)) 500)).2)
                 (Some (scheduled_room "r1" ∅)) 600)
              (scheduled_room "r1" ∅) (scheduled_room "r1" ∅) sample_profile)
    as (st & Hst & Hdb & _ & _ & Hnotice);
    try reflexivity; [left; vm_compute; reflexivity|].
  exists st. split.
  - destruct Hst as [[-> _]|[_ Hn]]; [reflexivity|vm_compute in Hn; discriminate Hn].
  - split; [exact Hdb|]. apply Hnotice; try reflexivity. vm_compute. discriminate.
Defined.

(** A register call on an empty store writes both records of the
    sample caller with the status the transaction assigned, and keeps
    the two views in agreement. *)
Lemma C5_views_agree_sample :
  views_agree
    (db (handleRegisterForSelectedRoom
           (sample_world ∅ (Some (scheduled_room "r1" ∅)) 500)).2)
  ∧ db (handleRegisterForSelectedRoom
          (sample_world ∅ (Some (scheduled_room "r1" ∅)) 500)).2
      !! p_room_rsvp "r1" "u1" ≫= (.!! "status") = Some (JStr "registered")
  ∧ db (handleRegisterForSelectedRoom
          (sample_world ∅ (Some (scheduled_room "r1" ∅)) 500)).2
      !! p_user_rsvp "u1" "r1" ≫= (.!! "status") = Some (JStr "registered").
Proof.
  destruct (@C5_dual_view_written_together sample_builtins
              (sample_world ∅ (Some (scheduled_room "r1" ∅)) 500))
    as (_ & Hagree & Hcommit).
  split; [apply Hagree; intros roomId ownerId; reflexivity|].
  destruct (Hcommit (scheduled_room "r1" ∅) sample_profile)
    as (cfg' & st & Htx & Hst & _ & Hwritten & _);
    try reflexivity; [vm_compute; discriminate|vm_compute; discriminate|constructor|].
  destruct (Hwritten eq_refl) as (_ & Hroom & Huser).
  assert (Est : st = "registered").
  { apply (f_equal snd) in Htx. vm_compute in Htx. symmetry. exact Htx. }
  rewrite Est in Hroom, Huser. split; [exact Hroom|exact Huser].
Defined.

(** Two joins of the sample caller, at 100 and at 900. *)
Lemma C9_two_joins_sample :
  ∃ entry,
    db (handleJoinRoom "r1"
          (sample_world (db (handleJoinRoom "r1" (sample_world ∅ None 100)).2)
             None 900)).2
    !! p_audience_index "r1" (joinUserId sample_profile) = Some entry
    ∧ entry !! "firstSeen" = Some (JNum 101)
    ∧ entry !! "lastSeen" = Some (JNum 901)
    ∧ entry !! "lastSessionKey" = Some (JStr "k1").
Proof.
  destruct C9_first_seen_kept_across_joins as (_ & _ & Htwice).
  apply (Htwice (sample_world ∅ None 100)
           (sample_world (db (handleJoinRoom "r1" (sample_world ∅ None 100)).2)
              None 900)
           "r1" sample_profile); try reflexivity.
  vm_compute. discriminate.
Defined.

(** A register call of the sample caller over a cancelled record. *)
Lemma C10_cancelled_record_sample :
  ∃ cfg',
    db (handleRegisterForSelectedRoom
          (sample_world cancelled_db (Some (scheduled_room "r1" ∅)) 500)).2
    !! p_rsvp_config "r1" = Some cfg'
    ∧ bookedCount_of (Some cfg') = 1
    ∧ db (handleRegisterForSelectedRoom
            (sample_world cancelled_db (Some (scheduled_room "r1" ∅)) 500)).2
      !! p_room_rsvp "r1" "u1" ≫= (.!! "status") = Some (JStr "registered").
Proof.
  destruct (@C10_inactive_record_registers_again sample_builtins) as (_ & _ & Hagain).
  destruct (Hagain (sample_world cancelled_db (Some (scheduled_room "r1" ∅)) 500)
              (scheduled_room "r1" ∅) sample_profile
              {[ "status" := JStr "cancelled" ]})
    as (cfg' & st & Htx & _ & Hcfg & Hcount & Hroom & _);
    try reflexivity;
    [vm_compute; discriminate|vm_compute; discriminate|constructor|].
  exists cfg'. split; [exact Hcfg|].
  destruct Hcount as [(-> & Hb & _)|(-> & _ & _)].
  - split; [exact Hb|exact Hroom].
  - vm_compute in Htx. discriminate Htx.
Defined.

(** The gate at 500, before the scheduled start: still locked. *)
Lemma gate_still_locked_sample :
  db (handleLockedTimerFinished
        (sample_world scheduled_db (Some (scheduled_room "r1" ∅)) 500)).2
  = scheduled_db
  ∧ error (ui (handleLockedTimerFinished
                 (sample_world scheduled_db (Some (scheduled_room "r1" ∅)) 500)).2)
    = "Room is still locked. Please wait a little more.".
Proof.
  destruct (@gate_recheck sample_builtins
              (sample_world scheduled_db (Some (scheduled_room "r1" ∅)) 500)
              (scheduled_room "r1" ∅) eq_refl eq_refl) as [Hlocked _].
  destruct Hlocked as (Hdb & Herr & _); [vm_compute; reflexivity|].
  split; [exact Hdb|exact Herr].
Defined.

(** Strings compared by code units are ordered consistently. *)
Lemma sample_localeCompare_consistent : @localeCompare_consistent sample_builtins.
Proof.
  assert (Hle : ∀ a b, @localeCompare sample_builtins a b <= 0
                       ↔ (a ?= b)%string ≠ Gt).
  { intros a b. simpl. unfold String.ltb.
    destruct (String.eqb_spec a b) as [->|Hne].
    - split; [|lia]. intros _.
      pose proof (String.compare_antisym b b) as Ha.
      destruct (b ?= b)%string; simpl in Ha; congruence.
    - destruct (a ?= b)%string eqn:E; split; try lia; try congruence.
      apply String.compare_eq_iff in E. contradiction. }
  split.
  - intros a b. rewrite !Hle. rewrite (String.compare_antisym b a).
    destruct (a ?= b)%string; simpl; [left|left|right]; congruence.
  - intros a b c. rewrite !Hle. intros Hab Hbc.
    destruct (a ?= b)%string eqn:Eab; [| |congruence].
    { apply String.compare_eq_iff in Eab. subst. exact Hbc. }
    destruct (b ?= c)%string eqn:Ebc; [| |congruence].
    { apply String.compare_eq_iff in Ebc. subst. rewrite Eab. discriminate. }
    apply OrderedTypeEx.String_as_OT.cmp_lt in Eab, Ebc.
    pose proof (OrderedTypeEx.String_as_OT.lt_trans _ _ _ Eab Ebc) as Hac.
    apply OrderedTypeEx.String_as_OT.cmp_lt in Hac.
    change (OrderedTypeEx.String_as_OT.cmp a c) with (a ?= c)%string in Hac.
    rewrite Hac. discriminate.
Qed.

(** A phone typed with its country code and spaces. *)
Lemma phone_round_trip_sample :
  toE164India "+91 99999 99999" = "+919999999999"
  ∧ sanitizePhone (toE164India "+91 99999 99999") = "9999999999".
Proof. apply (toE164India_round_trip "+91 99999 99999"). reflexivity. Defined.

(** The profile of a session record that holds only a phone. *)
Lemma phone_only_identity_sample :
  userId (normalizeProfile sample_base) = "USER-9999999999"
  ∧ email (normalizeProfile sample_base) = "9999999999@otp.local"
  ∧ rsvpOwnerId (Some (normalizeProfile sample_base)) ≠ "".
Proof.
  destruct (normalizeProfile_identity sample_base) as (_ & _ & _ & _ & Ho & _);
    [vm_compute; discriminate|].
  split; [reflexivity|]. split; [reflexivity|exact Ho].
Defined.

(** The same profile, stored and read back. *)
Lemma phone_only_stored_sample :
  normalizeProfile (stored_profile (normalizeProfile sample_base))
  = normalizeProfile sample_base.
Proof.
  apply (normalizeProfile_idempotent sample_base). vm_compute. discriminate.
Defined.

(** The scheduled room before its start and during its window. *)
Lemma lifecycle_forward_sample :
  phase (getRoomState (scheduled_room "r1" ∅) 500)
  <= phase (getRoomState (scheduled_room "r1" ∅) 1500).
Proof. apply (getRoomState_never_goes_back (scheduled_room "r1" ∅) 500 1500). lia. Defined.

(** A register call at 1500, when the scheduled room is running. *)
Lemma register_late_sample :
  db (handleRegisterForSelectedRoom
        (sample_world ∅ (Some (scheduled_room "r1" ∅)) 1500)).2 = ∅
  ∧ error (ui (handleRegisterForSelectedRoom
                 (sample_world ∅ (Some (scheduled_room "r1" ∅)) 1500)).2)
    = "Registration closed for this room.".
Proof.
  destruct (@register_needs_upcoming sample_builtins
              (sample_world ∅ (Some (scheduled_room "r1" ∅)) 1500)
              sample_profile (scheduled_room "r1" ∅) eq_refl eq_refl)
    as (Hdb & _ & _ & _ & _ & Herr & _);
    [vm_compute; discriminate|vm_compute; discriminate|].
  split; [exact Hdb|exact Herr].
Defined.

(** A register call whose dual write, the third round trip, fails. *)
Lemma register_failed_write_sample :
  ∃ cfg',
    db (handleRegisterForSelectedRoom
          (failing_world ∅ (Some (scheduled_room "r1" ∅)) 500 2)).2
    !! p_rsvp_config "r1" = Some cfg'
    ∧ bookedCount_of (Some cfg') + waitlistCount_of (Some cfg') = 1
    ∧ db (handleRegisterForSelectedRoom
            (failing_world ∅ (Some (scheduled_room "r1" ∅)) 500 2)).2
      !! p_room_rsvp "r1" "u1" = None
    ∧ error (ui (handleRegisterForSelectedRoom
                   (failing_world ∅ (Some (scheduled_room "r1" ∅)) 500 2)).2)
      = "Failed to register. Please retry.".
Proof.
  destruct (@register_dual_write_failure sample_builtins
              (failing_world ∅ (Some (scheduled_room "r1" ∅)) 500 2)
              sample_profile (scheduled_room "r1" ∅))
    as (cfg' & st & _ & Hdb & Hsum & Hroom & _ & _ & Herr & _);
    try reflexivity;
    [vm_compute; discriminate|vm_compute; discriminate|constructor|].
  exists cfg'. split; [rewrite Hdb; apply lookup_insert_eq|].
  split; [rewrite Hsum; reflexivity|]. split; [exact Hroom|exact Herr].
Defined.

(** The sample caller registers for the scheduled room; the buckets are
    computed at 700 from the page's state. *)
Lemma registered_room_sample :
  scheduled_room "r1" ∅
  ∈ bucket_yours
      (getBuckets
         (profile (ui (handleRegisterForSelectedRoom
                         (sample_world ∅ (Some (scheduled_room "r1" ∅)) 500)).2))
         [scheduled_room "r1" ∅]
         (userRsvps (ui (handleRegisterForSelectedRoom
                           (sample_world ∅ (Some (scheduled_room "r1" ∅)) 500)).2))
         700).
Proof.
  destruct (@registered_room_moves_to_yours sample_builtins
              (sample_world ∅ (Some (scheduled_room "r1" ∅)) 500)
              sample_profile (scheduled_room "r1" ∅) (scheduled_room "r1" ∅)
              [scheduled_room "r1" ∅] 700 eq_refl eq_refl) as [Hyours _].
  - left. vm_compute. reflexivity.
  - apply list_elem_of_here.
  - reflexivity.
  - exact Hyours.
Defined.

(** A tap on the scheduled room at 500 by a caller without a
    registration. *)
Lemma room_action_sample :
  getActionLabel (ui (sample_world ∅ None 500)) 500 (scheduled_room "r1" ∅)
  = "Register Slot"
  ∧ selectedRoomForRsvp
      (ui (handleRoomAction 500 (scheduled_room "r1" ∅) (sample_world ∅ None 500)).2)
    = Some (scheduled_room "r1" ∅).
Proof.
  pose proof (@room_action_follows_label sample_builtins (sample_world ∅ None 500)
                500 (scheduled_room "r1" ∅) eq_refl eq_refl) as Hthm.
  assert (Hstate : getRoomState (scheduled_room "r1" ∅) 500 = upcoming)
    by (vm_compute; reflexivity).
  rewrite Hstate in Hthm.
  destruct Hthm as (_ & _ & _ & Hrest); [vm_compute; discriminate|].
  assert (Hnone : isActiveRsvpStatus
                    (userRsvps (ui (sample_world ∅ None 500)) !! "r1"
                     ≫= (.!! "status")) = false) by reflexivity.
  change (room_id (scheduled_room "r1" ∅)) with "r1" in Hrest.
  rewrite Hnone in Hrest. destruct Hrest as (Hlabel & Hsel & _).
  split; [exact Hlabel|exact Hsel].
Defined.

(** The sample caller joins a room at 100 with every round trip
    answered. *)
Lemma join_sample :
  location (ui (handleJoinRoom "r1" (sample_world ∅ None 100)).2)
  = Some "/room/r1?dbKey=k1&uid=u1&role=audience".
Proof.
  destruct (join_ends_in_room_or_error (sample_world ∅ None 100) "r1"
              sample_profile eq_refl) as (_ & Hnamed).
  destruct Hnamed as ([(Hloc & _)|(_ & _ & Herr)] & _);
    [vm_compute; discriminate|exact Hloc|].
  vm_compute in Herr. discriminate Herr.
Defined.

(** The sample caller, with the registration sheet open for the
    scheduled room, registers at 500 and then taps the room: the call
    closes the sheet, the tap opens the waiting screen, and when the
    countdown fires before the start the room stays on it. *)
Lemma one_sheet_sample :
  selectedRoomForRsvp (ui (sheet_world ∅ (scheduled_room "r1" ∅) 500))
  = Some (scheduled_room "r1" ∅)
  ∧ notice (ui (handleRegisterForSelectedRoom
                  (sheet_world ∅ (scheduled_room "r1" ∅) 500)).2)
    = "Registered for r1. It now appears in Your Shows."
  ∧ one_sheet (ui (handleRegisterForSelectedRoom
                     (sheet_world ∅ (scheduled_room "r1" ∅) 500)).2)
  ∧ selectedLockedRoom
      (ui (handleRoomAction 600 (scheduled_room "r1" ∅)
             (handleRegisterForSelectedRoom
                (sheet_world ∅ (scheduled_room "r1" ∅) 500)).2).2)
    = Some (scheduled_room "r1" ∅)
  ∧ one_sheet
      (ui (handleRoomAction 600 (scheduled_room "r1" ∅)
             (handleRegisterForSelectedRoom
                (sheet_world ∅ (scheduled_room "r1" ∅) 500)).2).2)
  ∧ error
      (ui (handleLockedTimerFinished
             (handleRoomAction 600 (scheduled_room "r1" ∅)
                (handleRegisterForSelectedRoom
                   (sheet_world ∅ (scheduled_room "r1" ∅) 500)).2).2).2)
    = "Room is still locked. Please wait a little more."
  ∧ one_sheet
      (ui (handleLockedTimerFinished
             (handleRoomAction 600 (scheduled_room "r1" ∅)
                (handleRegisterForSelectedRoom
                   (sheet_world ∅ (scheduled_room "r1" ∅) 500)).2).2).2).
Proof.
  destruct (@one_sheet_at_a_time sample_builtins
              (sheet_world ∅ (scheduled_room "r1" ∅) 500))
    as (_ & Hregistered & _); [right; reflexivity|].
  destruct (@one_sheet_at_a_time sample_builtins _ Hregistered)
    as (Htapped & _).
  destruct (@one_sheet_at_a_time sample_builtins _
              (Htapped 600 (scheduled_room "r1" ∅)))
    as (_ & _ & Hfired & _).
  split; [reflexivity|]. split; [vm_compute; reflexivity|].
  split; [exact Hregistered|]. split; [vm_compute; reflexivity|].
  split; [exact (Htapped 600 (scheduled_room "r1" ∅))|].
  split; [vm_compute; reflexivity|exact Hfired].
Defined.

(** The stored room with two seats, both taken. *)
Lemma seatsLeft_full_sample :
  seatsLeft (Some (roomEntry "r1" full_doc)) = Some 0
  ∧ is_full (doc_rsvp_config full_doc).
Proof.
  destruct (@seatsLeft_and_ledger sample_builtins "r1" full_doc 2 2 eq_refl eq_refl)
    as (Hseats & _ & _ & Hfull & _).
  split; [exact Hseats|]. apply Hfull; [lia|exact Hseats].
Defined.

(** The countdown to one second after the epoch, read one millisecond
    late. *)
Lemma waitingTick_sample :
  @waitingTick epoch_builtins (Some "1970-01-01T00:00:01.000Z") 1001 = TimerFinished.
Proof.
  destruct (@waitingTick_fires_after_target epoch_builtins
              "1970-01-01T00:00:01.000Z" 1000 1001) as [Hfire _];
    [discriminate|reflexivity|].
  apply Hfire. lia.
Defined.

(** The two sample rooms at 2500 for the sample caller, who visited no
    room last: the upcoming room comes before the ended one. *)
Lemma yourShows_order_sample :
  ∃ pinned rest,
    yourShows (Some sample_profile) [scheduled_room "r1" ∅; later_room]
      sample_rsvps 2500 = (pinned ++ rest)%list
    ∧ pinned = []
    ∧ StronglySorted (rank_then_start 2500) rest.
Proof.
  destruct (@yourShows_order sample_builtins (Some sample_profile)
              [scheduled_room "r1" ∅; later_room] sample_rsvps 2500
              sample_localeCompare_consistent)
    as (pinned & rest & Heq & _ & Hpinned & _ & Hsorted).
  - apply (bool_decide_unpack _). vm_compute. exact I.
  - exists pinned, rest. split; [exact Heq|]. split; [|exact Hsorted].
    destruct Hpinned as [|r l [Hne _] _]; [reflexivity|].
    exfalso. apply Hne. reflexivity.
Defined.
